(** * The integration agent of html-to-nextjs-converter, embedded in Rocq

    Source files: src/integration/try-04-testing.py (and its near copy
    try-03-testing.py): the tool layer (read_file, write_file,
    list_directory, run_shell_command, validate_typescript_code), the
    CodeIndexer, the AgentExecutor configuration and main.

    The Python code acts on the operating system, on a persisted vector
    store and on a language model.  They are modelled by explicit state
    passing: a machine state carries the process environment, the operating
    system (behind an interface, so that theorems hold for every behaviour of
    the file system and of child processes), the lines printed and the
    persisted collections.  A Python call is a function from states to an
    outcome and a state; an outcome is a returned value, a raised exception,
    or a call that never returns. *)

From Stdlib Require Import ZArith String Ascii List Lia.
From stdpp Require Import base strings list gmap pretty.

Open Scope string_scope.

(** ** Python exceptions *)

Inductive exn_class :=
| TypeError
| ValueError
| FileNotFoundError      (* subclass of OSError *)
| OSError                (* the other subclasses of OSError *)
| UnicodeDecodeError     (* subclass of ValueError *)
| TimeoutExpired
| OutputParserException.

(** [Exc c msg] is an exception of class [c] whose [str()] is [msg].
    [CalledProcessError] keeps the attributes the handlers read. *)
Inductive exn :=
| Exc (cls : exn_class) (msg : string)
| CalledProcessError (returncode : Z) (cmd stdout stderr : string).

Definition nl : string := String "010"%char "".

(** [str(e)]; for CalledProcessError the text of a positive exit status
    (a negative one, death by a signal, prints the signal instead). *)
Definition str (e : exn) : string :=
  match e with
  | Exc _ msg => msg
  | CalledProcessError rc cmd _ _ =>
      "Command '" +:+ cmd +:+ "' returned non-zero exit status " +:+ pretty rc +:+ "."
  end.

Definition is_CalledProcessError (e : exn) : bool :=
  match e with CalledProcessError _ _ _ _ => true | Exc _ _ => false end.

Definition is_FileNotFoundError (e : exn) : bool :=
  match e with Exc FileNotFoundError _ => true | _ => false end.

(** Every class above derives from [Exception]. *)
Definition is_Exception (e : exn) : bool := true.

(** ** Outcomes and the state monad of the scripts *)

Inductive outcome (A : Type) :=
| Ret (a : A)          (* the call returned a *)
| Raise (e : exn)      (* the call raised e *)
| Hang.                (* the call never returns *)
Arguments Ret {A} a.
Arguments Raise {A} e.
Arguments Hang {A}.

(** What a system call answers: a value or an exception. *)
Definition sysres (A : Type) : Type := A + exn.

(** What a child process does once it is started with its output captured. *)
Inductive behaviour :=
| Exits (seconds : nat) (returncode : Z) (out err : string)
| ExitsUndecodable (seconds : nat) (returncode : Z) (msg : string)
      (* the captured bytes are not text in the locale's encoding *)
| SpawnFails (cls : exn_class) (msg : string)
      (* Popen raises, e.g. cwd does not exist *)
| NeverExits.

(** The operating system, as the scripts use it.  [W] is its state. *)
Class OS (W : Type) := {
  (* the text of file p: open(p, 'r', encoding='utf-8') ... f.read() *)
  os_read_text : string → W → sysres string * W;
  (* os.makedirs(p, exist_ok=True) *)
  os_makedirs : string → W → sysres unit * W;
  (* open(p, 'w', encoding='utf-8') ... f.write(content) *)
  os_write_text : string → string → W → sysres unit * W;
  (* os.listdir(p) *)
  os_listdir : string → W → sysres (list string) * W;
  (* the child of Popen(command, cwd=cwd, shell=True) *)
  os_spawn : string → string → W → behaviour * W;
  (* the entries below directory p, each as the names of its path relative
     to p and whether it is a regular file; an exception when p is not an
     existing directory *)
  os_tree : string → W → sysres (list (list string * bool));
}.

(** A chunk or a loaded file: langchain's Document. *)
Record Document := { page_content : string; source : string }.

Record state (W : Type) := {
  environ : gmap string string;          (* os.environ, after load_dotenv() *)
  os : W;
  stdout : list string;                  (* what print() wrote, oldest first *)
  chroma : gmap string (list Document);  (* persisted collections, by directory *)
}.
Arguments environ {W} s.
Arguments os {W} s.
Arguments stdout {W} s.
Arguments chroma {W} s.

Definition M (W A : Type) : Type := state W → outcome A * state W.

Definition ret {W A} (a : A) : M W A := λ s, (Ret a, s).
Definition raise {W A} (e : exn) : M W A := λ s, (Raise e, s).
Definition bind {W A B} (c : M W A) (k : A → M W B) : M W B :=
  λ s, match c s with
       | (Ret a, s') => k a s'
       | (Raise e, s') => (Raise e, s')
       | (Hang, s') => (Hang, s')
       end.

Notation "'let*' x ':=' c 'in' k" := (bind c (λ x, k))
  (at level 10, x name, c at level 100, k at level 200).
Notation "c1 ';;;' c2" := (bind c1 (λ _, c2))
  (at level 100, c2 at level 200, right associativity).

(** [try: body except <classes caught> as e: handler e] *)
Definition try_except {W A} (body : M W A) (caught : exn → bool)
    (handler : exn → M W A) : M W A :=
  λ s, match body s with
       | (Raise e, s') => if caught e then handler e s' else (Raise e, s')
       | r => r
       end.

Definition of_sysres {A} (r : sysres A) : outcome A :=
  match r with inl a => Ret a | inr e => Raise e end.

(** Lifting a system call to the monad. *)
Definition syscall {W A} (f : W → sysres A * W) : M W A :=
  λ s, let '(r, w) := f (os s) in
       (of_sysres r,
        {| environ := environ s; os := w; stdout := stdout s; chroma := chroma s |}).

Definition lift_pure {W A} (r : sysres A) : M W A := λ s, (of_sysres r, s).

(** [os.getenv(name)] *)
Definition getenv {W} (name : string) : M W (option string) :=
  λ s, (Ret (environ s !! name), s).

(** [print(line)] *)
Definition print {W} (line : string) : M W unit :=
  λ s, (Ret tt,
        {| environ := environ s; os := os s; stdout := stdout s ++ [line];
           chroma := chroma s |}).

(** Truth value of a [str | None]: None and the empty string are false. *)
Definition truthy (v : option string) : bool :=
  match v with
  | None => false
  | Some s => negb (String.eqb s "")
  end.

(** ** posixpath *)

Module posixpath.

Definition slash : ascii := "/"%char.

Definition endswith_sep (a : string) : bool :=
  match rev (list_ascii_of_string a) with
  | c :: _ => Ascii.eqb c slash
  | [] => false
  end.

(** [os.path.join(a, b)]: an absolute [b] replaces [a]; [a = None]
    (an unset variable) is a TypeError. *)
Definition join (a : option string) (b : string) : sysres string :=
  match a with
  | None =>
      inr (Exc TypeError "expected str, bytes or os.PathLike object, not NoneType")
  | Some a =>
      inl (if String.prefix "/" b then b
           else if (String.eqb a "" || endswith_sep a)%bool then a +:+ b
           else a +:+ "/" +:+ b)
  end.

Fixpoint drop_while {A} (f : A → bool) (l : list A) : list A :=
  match l with
  | [] => []
  | x :: l' => if f x then drop_while f l' else l
  end.

(** [os.path.dirname(p)]: everything up to the last slash, without trailing
    slashes unless it consists of slashes only. *)
Definition dirname (p : string) : string :=
  let is_sep c := Ascii.eqb c slash in
  let head := rev (drop_while (λ c, negb (is_sep c)) (rev (list_ascii_of_string p))) in
  string_of_list_ascii
    (if forallb is_sep head then head
     else rev (drop_while is_sep (rev head))).

Definition isabs (p : string) : bool := String.prefix "/" p.

End posixpath.

(** ** subprocess.run *)

Record run_kwargs := {
  cwd : string;
  check : bool;
  capture_output : bool;
  text : bool;
  shell : bool;
  timeout : option nat;     (* seconds; None when the keyword is not passed *)
}.

Record CompletedProcess := {
  cp_returncode : Z;
  cp_stdout : string;
  cp_stderr : string;
}.

Definition TimeoutExpired_exc (command : string) (t : nat) : exn :=
  Exc TimeoutExpired
    ("Command '" +:+ command +:+ "' timed out after " +:+ pretty t +:+ " seconds").

(** The timeout that fires, if any, for a child that exits after [seconds]. *)
Definition expired (k : run_kwargs) (seconds : nat) : option nat :=
  match timeout k with
  | Some t => if (t <? seconds)%nat then Some t else None
  | None => None
  end.

(** What [subprocess.run(command, **k)] does with a child of behaviour [b]
    when its output is captured as text, as in every call of the scripts:
    communicate() waits for the child, for at most [timeout] seconds when
    a timeout is given and without limit otherwise; with [check], a non-zero
    exit status raises CalledProcessError. *)
Definition subprocess_result (command : string) (k : run_kwargs) (b : behaviour)
    : outcome CompletedProcess :=
  match b with
  | SpawnFails cls msg => Raise (Exc cls msg)
  | NeverExits =>
      match timeout k with
      | Some t => Raise (TimeoutExpired_exc command t)
      | None => Hang
      end
  | Exits seconds rc out err =>
      match expired k seconds with
      | Some t => Raise (TimeoutExpired_exc command t)
      | None =>
          if (check k && negb (rc =? 0)%Z)%bool then
            Raise (CalledProcessError rc command out err)
          else Ret {| cp_returncode := rc; cp_stdout := out; cp_stderr := err |}
      end
  | ExitsUndecodable seconds rc msg =>
      match expired k seconds with
      | Some t => Raise (TimeoutExpired_exc command t)
      | None => Raise (Exc UnicodeDecodeError msg)
      end
  end.

Section Tools.
Context {W : Type} `{OS W}.

Definition subprocess_run (command : string) (k : run_kwargs) : M W CompletedProcess :=
  λ s, let '(b, w) := os_spawn (cwd k) command (os s) in
       (subprocess_result command k b,
        {| environ := environ s; os := w; stdout := stdout s; chroma := chroma s |}).

(** src/integration/try-04-testing.py, lines 25-34 *)
Definition read_file (file_path : string) : M W string :=
  let* project_path := getenv "PROJECT_PATH" in
  try_except
    (let* absolute_path := lift_pure (posixpath.join project_path file_path) in
     syscall (os_read_text absolute_path))
    is_Exception
    (λ e, ret ("Error reading file " +:+ file_path +:+ ": " +:+ str e)).

(** lines 36-47 *)
Definition write_file (file_path content : string) : M W string :=
  let* project_path := getenv "PROJECT_PATH" in
  try_except
    (let* absolute_path := lift_pure (posixpath.join project_path file_path) in
     syscall (os_makedirs (posixpath.dirname absolute_path));;;
     syscall (os_write_text absolute_path content);;;
     ret ("Successfully wrote to " +:+ absolute_path +:+ "."))
    is_Exception
    (λ e, ret ("Error writing to file " +:+ file_path +:+ ": " +:+ str e)).

Fixpoint join_lines (l : list string) : string :=
  match l with
  | [] => ""
  | [x] => x
  | x :: l' => x +:+ nl +:+ join_lines l'
  end.

(** lines 49-58 *)
Definition list_directory (path : string) : M W string :=
  let* project_path := getenv "PROJECT_PATH" in
  try_except
    (let* absolute_path := lift_pure (posixpath.join project_path path) in
     let* files := syscall (os_listdir absolute_path) in
     ret (join_lines files))
    is_Exception
    (λ e, ret ("Error listing directory " +:+ path +:+ ": " +:+ str e)).

(** The keywords of the subprocess.run call of lines 72-79: no timeout. *)
Definition run_shell_command_kwargs (project_path : string) : run_kwargs :=
  {| cwd := project_path; check := true; capture_output := true;
     text := true; shell := true; timeout := None |}.

(** lines 60-82 *)
Definition run_shell_command (command : string) : M W string :=
  let* project_path := getenv "PROJECT_PATH" in
  if negb (truthy project_path) then
    ret "Error: PROJECT_PATH is not set in the .env file."
  else
    try_except
      (let* process :=
         subprocess_run command (run_shell_command_kwargs (default "" project_path)) in
       ret ("Command executed successfully. Output:" +:+ nl +:+ cp_stdout process))
      is_CalledProcessError
      (λ e, match e with
            | CalledProcessError returncode _ stdout stderr =>
                ret ("Command failed with exit code " +:+ pretty returncode
                     +:+ ". Stderr:" +:+ nl +:+ stderr +:+ nl
                     +:+ "Stdout:" +:+ nl +:+ stdout)
            | _ => raise e
            end).

(** lines 84-91 *)
Definition validate_typescript_code : M W string :=
  run_shell_command "npx tsc --noEmit".

End Tools.

(** ** pathlib (pure POSIX paths) *)

Module pathlib.

(** A path is its root flag and its names; [Path(s)] drops empty and "."
    components. *)
Record Path := { anchored : bool; names : list string }.

Fixpoint split_sep (cs cur : list ascii) : list string :=
  match cs with
  | [] => [string_of_list_ascii (rev cur)]
  | c :: cs' =>
      if Ascii.eqb c "/"%char
      then string_of_list_ascii (rev cur) :: split_sep cs' []
      else split_sep cs' (c :: cur)
  end.

Definition is_name (n : string) : bool :=
  negb (String.eqb n "" || String.eqb n ".")%bool.

Definition of_string (s : string) : Path :=
  {| anchored := String.prefix "/" s;
     names := List.filter is_name (split_sep (list_ascii_of_string s) []) |}.

Fixpoint join_names (l : list string) : string :=
  match l with
  | [] => ""
  | [x] => x
  | x :: l' => x +:+ "/" +:+ join_names l'
  end.

(** [str(p)] *)
Definition to_string (p : Path) : string :=
  if anchored p then "/" +:+ join_names (names p)
  else match names p with [] => "." | _ => join_names (names p) end.

(** [p.parts] *)
Definition parts (p : Path) : list string :=
  ((if anchored p then ["/"] else []) ++ names p)%list.

(** [p.parent] *)
Definition parent (p : Path) : Path :=
  {| anchored := anchored p; names := removelast (names p) |}.

(** [p / rel] for relative names [rel] *)
Definition joinpath (p : Path) (rel : list string) : Path :=
  {| anchored := anchored p; names := (names p ++ rel)%list |}.

(** Matching one name against one pattern component, as [Path.glob]
    does: [*] is any run of characters, [?] any one character, every
    other character stands for itself; braces are not special.
    (Bracket classes are left out: the pattern of the loader has none.) *)
Fixpoint fnmatch_chars (pat name : list ascii) : bool :=
  match pat with
  | [] => match name with [] => true | _ => false end
  | p :: pat' =>
      if Ascii.eqb p "*"%char then
        (fix star (n : list ascii) : bool :=
           (fnmatch_chars pat' n
            || match n with [] => false | _ :: n' => star n' end)%bool) name
      else
        match name with
        | [] => false
        | c :: name' =>
            ((Ascii.eqb p "?"%char || Ascii.eqb p c) && fnmatch_chars pat' name')%bool
        end
  end.

Definition fnmatch (pat name : string) : bool :=
  fnmatch_chars (list_ascii_of_string pat) (list_ascii_of_string name).

(** Whether the names [rel] are selected by the pattern components [pat]:
    the component [**] stands for any number of directories, every other
    component is matched against one name. *)
Fixpoint glob_parts (pat rel : list string) : bool :=
  match pat with
  | [] => match rel with [] => true | _ => false end
  | p :: pat' =>
      if String.eqb p "**" then
        (fix any (r : list string) : bool :=
           (glob_parts pat' r
            || match r with [] => false | _ :: r' => any r' end)%bool) rel
      else
        match rel with
        | [] => false
        | n :: rel' => (fnmatch p n && glob_parts pat' rel')%bool
        end
  end.

(** Whether [Path(root).glob(pattern)] yields the entry [root / rel]. *)
Definition glob_match (pattern : string) (rel : list string) : bool :=
  glob_parts (names (of_string pattern)) rel.

End pathlib.

Definition set_chroma {W} (s : state W) (c : gmap string (list Document)) : state W :=
  {| environ := environ s; os := os s; stdout := stdout s; chroma := c |}.

Definition collection {W} (s : state W) (persist_directory : string) : list Document :=
  default [] (chroma s !! persist_directory).

Section RAG.
Context {W : Type} `{OS W}.

(** How a splitter that [from_language] returns cuts one text, with the
    separators of its language, chunk_size=1000 and chunk_overlap=100. *)
Variable split_text : string → list string.

(** The distance between the embeddings of a query and of a chunk text. *)
Variable embedding_distance : string → string → Z.

(** [_is_visible]: no name of the relative path starts with a dot. *)
Definition is_visible (rel : list string) : bool :=
  forallb (λ part, negb (String.prefix "." part)) rel.

(** Loading the selected items: a visible item is read by TextLoader, an
    item that cannot be read is skipped (silent_errors=True). *)
Fixpoint load_items (root : pathlib.Path) (items : list (list string)) (w : W)
    : list Document * W :=
  match items with
  | [] => ([], w)
  | rel :: items' =>
      let item := pathlib.to_string (pathlib.joinpath root rel) in
      let '(docs, w1) :=
        (if is_visible rel then
           match os_read_text item w with
           | (inl content, w') => ([ {| page_content := content; source := item |} ], w')
           | (inr _, w') => ([], w')
           end
         else ([], w)) in
      let '(rest, w2) := load_items root items' w1 in
      ((docs ++ rest)%list, w2)
  end.

(** The files that [Path(path).glob(glob)] selects, loaded; an exception
    when [path] is not an existing directory. *)
Definition DirectoryLoader_scan (path glob : string) (w : W)
    : sysres (list Document) * W :=
  match os_tree path w with
  | inr e => (inr e, w)
  | inl entries =>
      let items :=
        List.filter (λ e : list string * bool,
                       (pathlib.glob_match glob (fst e) && snd e)%bool) entries in
      let '(docs, w') := load_items (pathlib.of_string path) (map fst items) w in
      (inl docs, w')
  end.

(** [DirectoryLoader(path, glob=glob, loader_cls=TextLoader,
    silent_errors=True).load()] *)
Definition DirectoryLoader_load (path glob : string) : M W (list Document) :=
  syscall (DirectoryLoader_scan path glob).

(** The values of the enumeration [Language] of the text-splitter library
    (release 0.3; earlier releases have fewer of them, and none has a value
    typescript: the language is named ts). *)
Definition Language : list string :=
  [ "cpp"; "go"; "java"; "kotlin"; "js"; "ts"; "php"; "proto"; "python"; "r";
    "rst"; "ruby"; "rust"; "scala"; "swift"; "markdown"; "latex"; "html";
    "sol"; "csharp"; "cobol"; "c"; "lua"; "perl"; "haskell"; "elixir";
    "powershell"; "visualbasic6" ].

(** [RecursiveCharacterTextSplitter.from_language(language=..., chunk_size=1000,
    chunk_overlap=100)]: the separators are looked up by comparing the
    argument with the values of [Language]; any other argument is a
    ValueError.  The text of the error goes on with the list of the values,
    in the notation of the release, which is left out here. *)
Definition RecursiveCharacterTextSplitter_from_language (language : string)
    : M W (string → list string) :=
  if bool_decide (language ∈ Language) then ret split_text
  else raise (Exc ValueError ("Language " +:+ language +:+ " is not supported!")).

(** [splitter.split_documents(documents)]: the chunks of each document,
    each with the metadata of its document. *)
Definition split_documents (splitter : string → list string)
    (documents : list Document) : list Document :=
  flat_map (λ doc, map (λ t, {| page_content := t; source := source doc |})
                       (splitter (page_content doc))) documents.

(** [Chroma(persist_directory=d, ...)]: opens the collection persisted in
    [d], creating it empty when there is none. *)
Definition Chroma_open (d : string) : M W string :=
  λ s, (Ret d, set_chroma s (<[d := collection s d]> (chroma s))).

(** [Chroma.from_documents(chunks, embeddings, persist_directory=d)]:
    opens the collection of [d] in the same way and adds the chunks to it
    under fresh ids. *)
Definition Chroma_from_documents (chunks : list Document) (d : string) : M W string :=
  λ s, (Ret d, set_chroma s (<[d := (collection s d ++ chunks)%list]> (chroma s))).

Record CodeIndexer := {
  project_path : pathlib.Path;
  vector_store_path : pathlib.Path;
  vector_store : string;      (* the directory of the open Chroma store *)
}.

(** lines 100-107 *)
Definition CodeIndexer_init (project_path_str : string) : M W CodeIndexer :=
  let project_path := pathlib.of_string project_path_str in
  let vector_store_path :=
    pathlib.joinpath (pathlib.parent project_path) [".agent_vector_store"] in
  let* vector_store := Chroma_open (pathlib.to_string vector_store_path) in
  ret {| project_path := project_path;
         vector_store_path := vector_store_path;
         vector_store := vector_store |}.

Definition in_node_modules (doc : Document) : bool :=
  bool_decide ("node_modules" ∈ pathlib.parts (pathlib.of_string (source doc))).

(** lines 123-126: the documents whose path has no part node_modules *)
Definition visible_documents (docs : list Document) : list Document :=
  List.filter (λ doc, negb (in_node_modules doc)) docs.

Definition no_documents_warning : string :=
  "⚠️ No TypeScript documents found to index. Please ensure your PROJECT_PATH is correct and contains .ts/.tsx files.".

(** lines 109-146 *)
Definition index_project (self : CodeIndexer) : M W CodeIndexer :=
  print ("🔍 Indexing project files from: "
         +:+ pathlib.to_string (project_path self) +:+ "...");;;
  let* all_documents :=
    DirectoryLoader_load (pathlib.to_string (project_path self)) "**/*.{ts,tsx}" in
  let documents := visible_documents all_documents in
  match documents with
  | [] => print no_documents_warning;;; ret self
  | _ =>
      let* ts_splitter := RecursiveCharacterTextSplitter_from_language "typescript" in
      let chunks := split_documents ts_splitter documents in
      print ("   - Found " +:+ pretty (length documents) +:+ " files, split into "
             +:+ pretty (length chunks) +:+ " chunks.");;;
      print ("   - Storing embeddings in: "
             +:+ pathlib.to_string (vector_store_path self));;;
      let* store :=
        Chroma_from_documents chunks (pathlib.to_string (vector_store_path self)) in
      print "✅ Project indexing complete.";;;
      ret {| project_path := project_path self;
             vector_store_path := vector_store_path self;
             vector_store := store |}
  end.

Fixpoint insert_by_distance (query : string) (d : Document) (l : list Document)
    : list Document :=
  match l with
  | [] => [d]
  | x :: l' =>
      if (embedding_distance query (page_content d)
          <? embedding_distance query (page_content x))%Z
      then d :: l
      else x :: insert_by_distance query d l'
  end.

(** [similarity_search(query, k)]: the [k] nearest chunks, nearest first. *)
Definition similarity_search (docs : list Document) (query : string) (k : nat)
    : list Document :=
  take k (foldr (insert_by_distance query) [] docs).

(** lines 148-150: [as_retriever(search_kwargs={"k": 5})] *)
Record Retriever := { retriever_store : string; retriever_k : nat }.

Definition get_retriever (self : CodeIndexer) : Retriever :=
  {| retriever_store := vector_store self; retriever_k := 5 |}.

(** [retriever.get_relevant_documents(query)] *)
Definition get_relevant_documents (r : Retriever) (query : string)
    : M W (list Document) :=
  λ s, (Ret (similarity_search (collection s (retriever_store r)) query (retriever_k r)), s).

End RAG.

(** ** The agent loop *)

Inductive tool_input :=
| InStr (s : string)
| InDict (kv : list (string * string)).

Record AgentAction := { tool : string; action_input : tool_input; log : string }.

Record AgentStep := { action : AgentAction; observation : string }.

(** What the policy answers in PLANNING: one action, the final answer, or a
    payload the output parser rejects. *)
Inductive plan_result :=
| Act (a : AgentAction)
| Finish (output : string)
| Unparsable (llm_output : string).

Record Tool (W : Type) := { name : string; func : tool_input → M W string }.
Arguments name {W} t.
Arguments func {W} t.

Record AgentExecutor (W : Type) := {
  tools : list (Tool W);
  verbose : bool;
  handle_parsing_errors : bool;
  max_iterations : nat;
}.
Arguments tools {W} a.
Arguments verbose {W} a.
Arguments handle_parsing_errors {W} a.
Arguments max_iterations {W} a.

(** The states of the loop.  ERROR is not a state of its own: it is the
    outcome [Raise] of the step that fails. *)
Inductive loop_state :=
| PLANNING (iterations : nat) (intermediate_steps : list AgentStep)
| DONE (output : string) (intermediate_steps : list AgentStep).

Definition corrective_observation : string := "Invalid or incomplete response".

(** The transcript entry that answers a payload that does not parse. *)
Definition corrective_step (llm_output : string) : AgentStep :=
  {| action := {| tool := "_Exception";
                  action_input := InStr corrective_observation;
                  log := llm_output |};
     observation := corrective_observation |}.

Definition stopped_response : string :=
  "Agent stopped due to iteration limit or time limit.".

Section Loop.
Context {W : Type}.

(** The policy: the language model behind the prompt and the JSON output
    parser, given the transcript so far. *)
Variable plan : list AgentStep → M W plan_result.

Variable executor : AgentExecutor W.

(** The tool registered under a name (the executor keeps a dictionary from
    names to tools, so a later tool of the same name replaces an earlier
    one). *)
Definition lookup_tool (requested : string) : option (Tool W) :=
  List.find (λ t, String.eqb (name t) requested) (rev (tools executor)).

Fixpoint join_comma (l : list string) : string :=
  match l with
  | [] => ""
  | [x] => x
  | x :: l' => x +:+ ", " +:+ join_comma l'
  end.

Definition invalid_tool_observation (requested : string) : string :=
  requested +:+ " is not a valid tool, try one of ["
  +:+ join_comma (map name (tools executor)) +:+ "].".

(** Modelled from the spec: the body of the loop belongs to the agent
    library, which is not under src/; section 4.3 describes it.  PLANNING
    asks the policy for one action; EXECUTING dispatches the chosen tool;
    OBSERVING makes the result the observation of a new transcript entry.
    A payload that does not parse is, with [handle_parsing_errors] (set at
    lines 277-283), answered by a corrective observation, and is an error
    without it.  An action that names no registered tool is answered by an
    observation that lists the tools.  An exception of the policy or of a
    tool is not handled here, and a call that does not return keeps the
    loop waiting.  The result is the final answer or the new transcript
    entries. *)
Definition take_next_step (intermediate_steps : list AgentStep)
    : M W (string + list AgentStep) :=
  let* decision := plan intermediate_steps in
  match decision with
  | Finish output => ret (inl output)
  | Unparsable llm_output =>
      if handle_parsing_errors executor then
        ret (inr [ corrective_step llm_output ])
      else
        raise (Exc ValueError
                 ("An output parsing error occurred. This is the error: Could not parse LLM output: "
                  +:+ llm_output))
  | Act a =>
      match lookup_tool (tool a) with
      | Some t =>
          let* obs := func t (action_input a) in
          ret (inr [ {| action := a; observation := obs |} ])
      | None =>
          ret (inr [ {| action := a;
                        observation := invalid_tool_observation (tool a) |} ])
      end
  end.

(** Modelled from the spec: one turn of the loop of the agent library
    (not under src/), after section 4.3: the budget [max_iterations] is
    checked on entering PLANNING; when it is used up the run is DONE with
    the stopped response, a normal result that keeps the transcript; a
    final answer makes the run DONE; otherwise the new entries are appended
    to the transcript and the loop is in PLANNING again. *)
Definition iteration (st : loop_state) : M W loop_state :=
  match st with
  | DONE _ _ => ret st
  | PLANNING iterations intermediate_steps =>
      if (max_iterations executor <=? iterations)%nat then
        ret (DONE stopped_response intermediate_steps)
      else
        let* next := take_next_step intermediate_steps in
        match next with
        | inl output => ret (DONE output intermediate_steps)
        | inr new_steps =>
            ret (PLANNING (S iterations) (intermediate_steps ++ new_steps)%list)
        end
  end.

(** Modelled from the spec: the loop itself, at most [fuel] turns. *)
Fixpoint run (fuel : nat) (st : loop_state) : M W loop_state :=
  match fuel with
  | 0 => ret st
  | S fuel' =>
      let* st' := iteration st in
      match st' with
      | DONE _ _ => ret st'
      | PLANNING _ _ => run fuel' st'
      end
  end.

(** Modelled from the spec: [agent_executor.invoke(...)]: the loop from
    the empty transcript, with one turn more than the budget so that the
    turn that finds the budget used up is included. *)
Definition invoke : M W loop_state :=
  run (S (max_iterations executor)) (PLANNING 0 []).

(** Every call of the policy returns a decision, and the tool call that the
    decision asks for returns an observation. *)
Definition calls_return : Prop :=
  ∀ steps s, ∃ decision s',
    plan steps s = (Ret decision, s')
    ∧ ∀ a t, decision = Act a → lookup_tool (tool a) = Some t →
        ∃ obs s'', func t (action_input a) s' = (Ret obs, s'').

(** The calls of one run return: the run is in PLANNING with the transcript
    [steps] in the state [s] and has [n] turns of its budget left.  The call
    of the policy returns a decision and the tool call that the decision
    asks for returns an observation; and when the turn gives new entries,
    the same holds of the rest of the run, from the state the turn left. *)
Fixpoint calls_of_run_return (n : nat) (steps : list AgentStep) (s : state W) : Prop :=
  match n with
  | 0 => True
  | S n' =>
      (∃ decision s1,
         plan steps s = (Ret decision, s1)
         ∧ ∀ a t, decision = Act a → lookup_tool (tool a) = Some t →
             ∃ obs s2, func t (action_input a) s1 = (Ret obs, s2))
      ∧ ∀ new_steps s',
          take_next_step steps s = (Ret (inr new_steps), s') →
          calls_of_run_return n' (steps ++ new_steps)%list s'
  end.

End Loop.

(** ** main *)

(** [try: body except c1 as e: h1 e except c2 as e: h2 e] *)
Definition try_except2 {W A} (body : M W A)
    (c1 : exn → bool) (h1 : exn → M W A)
    (c2 : exn → bool) (h2 : exn → M W A) : M W A :=
  λ s, match body s with
       | (Raise e, s') =>
           if c1 e then h1 e s' else if c2 e then h2 e s' else (Raise e, s')
       | r => r
       end.

(** [pathlib.Path(v)] for the value of an environment variable; None is a
    TypeError (the text is the one of Python up to 3.11). *)
Definition Path_new (v : option string) : sysres pathlib.Path :=
  match v with
  | Some s => inl (pathlib.of_string s)
  | None => inr (Exc TypeError "expected str, bytes or os.PathLike object, not NoneType")
  end.

Section Main.
Context {W : Type} `{OS W}.

Variable split_text : string → list string.
Variable embedding_distance : string → string → Z.

(** The language model behind the prompt template, given the text of
    [initial_input] and the transcript. *)
Variable llm_plan : string → list AgentStep → M W plan_result.

(** The text of the f-string [initial_input] (lines 461-508) for a project
    path, the schema and the page-to-component mapping. *)
Variable initial_input : string → string → string → string.

(** The text in which a list of documents is shown to the policy. *)
Variable show_documents : list Document → string.

(** The argument [key] of a tool call: the input itself when it is a
    string, its entry when it is a dictionary. *)
Definition tool_arg (key : string) (i : tool_input) : M W string :=
  match i with
  | InStr s => ret s
  | InDict kv =>
      match List.find (λ e, String.eqb (fst e) key) kv with
      | Some e => ret (snd e)
      | None => raise (Exc ValueError ("validation error: field required: " +:+ key))
      end
  end.

(** lines 266-272 *)
Definition agent_tools (retriever : Retriever) : list (Tool W) :=
  [ {| name := "read_file";
       func := λ i, let* file_path := tool_arg "file_path" i in read_file file_path |};
    {| name := "write_file";
       func := λ i,
         match i with
         | InStr _ => raise (Exc ValueError "validation error: field required: content")
         | InDict _ =>
             let* file_path := tool_arg "file_path" i in
             let* content := tool_arg "content" i in
             write_file file_path content
         end |};
    {| name := "list_directory";
       func := λ i, let* path := tool_arg "path" i in list_directory path |};
    {| name := "run_shell_command";
       func := λ i, let* command := tool_arg "command" i in run_shell_command command |};
    {| name := "validate_typescript_code";
       func := λ _, validate_typescript_code |};
    {| name := "CodebaseRetriever";
       func := λ i,
         let* query := tool_arg "query" i in
         let* docs := get_relevant_documents embedding_distance retriever query in
         ret (show_documents docs) |} ].

(** lines 277-283 *)
Definition agent_executor (retriever : Retriever) : AgentExecutor W :=
  {| tools := agent_tools retriever;
     verbose := true;
     handle_parsing_errors := true;
     max_iterations := Z.to_nat 15000 |}.

Definition loop_output (st : loop_state) : string :=
  match st with
  | DONE output _ => output
  | PLANNING _ _ => ""
  end.

(** lines 230-523; [environ] is the environment after load_dotenv().
    Building the model clients (lines 245-260), the prompt and the agent
    (lines 274-276) does not act on the state and is left out, as is the
    progress log of the executor (verbose=True). *)
Definition main : M W unit :=
  let* project_path_str := getenv "PROJECT_PATH" in
  let* schema_path_str := getenv "SCHEMA_JSON_PATH" in
  let* api_key := getenv "GEMINI_API_KEY" in
  if negb (truthy project_path_str && truthy api_key) then
    print "❌ Error: Please set PROJECT_PATH and GEMINI_API_KEY in your .env file."
  else
    let* project_path := lift_pure (Path_new project_path_str) in
    let* schema_path := lift_pure (Path_new schema_path_str) in
    print "--- 🚀 Starting AI Refactoring Agent ---";;;
    let* indexer := CodeIndexer_init (default "" project_path_str) in
    let* indexer := index_project split_text indexer in
    let retriever := get_retriever indexer in
    try_except2
      (let* schema_content := syscall (os_read_text (pathlib.to_string schema_path)) in
       let mapping_file_path :=
         pathlib.joinpath (pathlib.parent project_path) ["pages-components-list.txt"] in
       let* component_mapping_content :=
         syscall (os_read_text (pathlib.to_string mapping_file_path)) in
       print (nl +:+ "--- 🤖 Invoking Agent (This will take a while, and will auto-retry on server errors) ---" +:+ nl);;;
       let* result :=
         invoke (llm_plan (initial_input (pathlib.to_string project_path)
                                         schema_content component_mapping_content))
                (agent_executor retriever) in
       print (nl +:+ "--- ✅ Agent execution finished! ---");;;
       print ("Final Output: " +:+ loop_output result))
      is_FileNotFoundError
      (λ e,
         print "❌ FATAL ERROR: A required file was not found. Please check your paths in the .env file and ensure pages-components-list.txt exists.";;;
         print ("Details: " +:+ str e))
      is_Exception
      (λ e,
         print (nl +:+ "❌ An unexpected error occurred during agent execution: " +:+ str e)).

End Main.

(** ** A small operating system for the examples

    Files are a table from paths to contents; directory listings, directory
    trees and the behaviour of commands are fixed tables.  A command that is
    not in the table is not found by the shell (exit status 127). *)

Module Example.

Record world := {
  files : gmap string string;
  listings : gmap string (list string);
  trees : gmap string (list (list string * bool));
  procs : gmap string behaviour;
}.

Definition no_such_file (p : string) : exn :=
  Exc FileNotFoundError ("[Errno 2] No such file or directory: '" +:+ p +:+ "'").

Definition read_text (p : string) (w : world) : sysres string * world :=
  (match files w !! p with
   | Some content => inl content
   | None => inr (no_such_file p)
   end, w).

Definition makedirs (p : string) (w : world) : sysres unit * world :=
  (if String.eqb p "" then inr (no_such_file p) else inl tt, w).

Definition write_text (p content : string) (w : world) : sysres unit * world :=
  (inl tt,
   {| files := <[p := content]> (files w); listings := listings w;
      trees := trees w; procs := procs w |}).

Definition listdir (p : string) (w : world) : sysres (list string) * world :=
  (match listings w !! p with
   | Some l => inl l
   | None => inr (no_such_file p)
   end, w).

Definition spawn (cwd command : string) (w : world) : behaviour * world :=
  (default (Exits 0 127 "" ("/bin/sh: 1: " +:+ command +:+ ": not found")) (procs w !! command), w).

Definition tree (p : string) (w : world) : sysres (list (list string * bool)) :=
  match trees w !! p with
  | Some l => inl l
  | None => inr (Exc FileNotFoundError ("Directory not found: '" +:+ p +:+ "'"))
  end.

#[global] Instance world_OS : OS world := {|
  os_read_text := read_text;
  os_makedirs := makedirs;
  os_write_text := write_text;
  os_listdir := listdir;
  os_spawn := spawn;
  os_tree := tree;
|}.

Definition boot (env : list (string * string)) (w : world) : state world :=
  {| environ := list_to_map env; os := w; stdout := []; chroma := ∅ |}.

(** A project at /home/dev/site with two components, a dependency and a
    file outside the project. *)
Definition site : world :=
  {| files := list_to_map
       [ ("/home/dev/site/src/app/page.tsx", "export default function Page() {}");
         ("/home/dev/site/src/lib/util.ts", "export const n = 1;");
         ("/home/dev/site/node_modules/react/index.ts", "export {};");
         ("/home/dev/site/legacy.{ts,tsx}", "export const old = 0;");
         ("/etc/hostname", "devbox") ];
     listings := list_to_map [ ("/etc", ["hostname"]); ("/home/dev/site/src", ["app"; "lib"]) ];
     trees := list_to_map
       [ ("/home/dev/site",
          [ (["src"], false); (["src"; "app"], false);
            (["src"; "app"; "page.tsx"], true);
            (["src"; "lib"], false); (["src"; "lib"; "util.ts"], true);
            (["node_modules"], false); (["node_modules"; "react"], false);
            (["node_modules"; "react"; "index.ts"], true) ]) ];
     procs := list_to_map
       [ ("npx tsc --noEmit", Exits 4 0 "" "npm warn config production Use `--omit=dev` instead.");
         ("cat public/logo.png", ExitsUndecodable 0 0
            "'utf-8' codec can't decode byte 0x89 in position 0: invalid start byte");
         ("npm run dev", NeverExits);
         ("false", Exits 0 1 "" "") ] |}.

(** The same project with one more file, whose name ends in the literal
    text of the loader's pattern. *)
Definition legacy_site : world :=
  {| files := files site; listings := listings site;
     trees := list_to_map
       [ ("/home/dev/site",
          [ (["src"], false); (["src"; "app"], false);
            (["src"; "app"; "page.tsx"], true);
            (["legacy.{ts,tsx}"], true) ]) ];
     procs := procs site |}.

Definition site_env : list (string * string) :=
  [ ("PROJECT_PATH", "/home/dev/site"); ("GEMINI_API_KEY", "key");
    ("SCHEMA_JSON_PATH", "/home/dev/schema.json") ].

Definition site_state : state world := boot site_env site.

(** A chunk persisted by an earlier run. *)
Definition old_chunk : Document :=
  {| page_content := "export const gone = 1;"; source := "/home/dev/site/src/gone.ts" |}.

Definition stale_store (w : world) : state world :=
  {| environ := list_to_map site_env; os := w; stdout := [];
     chroma := {[ "/home/dev/.agent_vector_store" := [old_chunk] ]} |}.

Definition site_indexer : CodeIndexer :=
  {| project_path := pathlib.of_string "/home/dev/site";
     vector_store_path := pathlib.of_string "/home/dev/.agent_vector_store";
     vector_store := "/home/dev/.agent_vector_store" |}.

(** One chunk per file. *)
Definition whole_text (t : string) : list string := [t].

Definition flat_distance (query chunk_text : string) : Z := 0%Z.

(** A policy whose every answer is text that is not an action. *)
Definition babbling {W} (steps : list AgentStep) : M W plan_result :=
  ret (Unparsable "I think we should start with the schema.").

(** A policy that asks for the development server to be started. *)
Definition starts_dev_server {W} (steps : list AgentStep) : M W plan_result :=
  ret (Act {| tool := "run_shell_command"; action_input := InStr "npm run dev";
              log := "" |}).

(** A policy that has the project type-checked once and then gives its
    final answer. *)
Definition validates_then_finishes {W} (steps : list AgentStep) : M W plan_result :=
  match steps with
  | [] => ret (Act {| tool := "validate_typescript_code"; action_input := InStr "";
                      log := "" |})
  | _ :: _ => ret (Finish "The project passes the type check.")
  end.

(** Building the index and asking the retriever, as main does before the
    loop and the CodebaseRetriever tool does in it. *)
Definition index_then_retrieve (query : string) : M world (list Document) :=
  let* indexer := CodeIndexer_init "/home/dev/site" in
  let* indexer := index_project whole_text indexer in
  get_relevant_documents flat_distance (get_retriever indexer) query.

End Example.

(** ** Reading the result of validate_typescript_code *)

(** The result reports a pass when it is the success message of
    run_shell_command. *)
Definition reports_pass (result : string) : bool :=
  String.prefix "Command executed successfully." result.

(** Pass as the specification defines it: zero exit status and empty
    diagnostic output, the output being what the checker wrote to stdout and
    stderr. *)
Definition spec_pass (b : behaviour) : bool :=
  match b with
  | Exits _ rc out err => ((rc =? 0)%Z && String.eqb (out +:+ err) "")%bool
  | _ => false
  end.

Definition success_text (out : string) : string :=
  "Command executed successfully. Output:" +:+ nl +:+ out.

Definition failure_text (rc : Z) (out err : string) : string :=
  "Command failed with exit code " +:+ pretty rc +:+ ". Stderr:" +:+ nl +:+ err
  +:+ nl +:+ "Stdout:" +:+ nl +:+ out.

Definition set_os {W} (s : state W) (w : W) : state W :=
  {| environ := environ s; os := w; stdout := stdout s; chroma := chroma s |}.


(** ** The phases of main *)

Section MainPhases.
Context {W : Type} `{OS W}.
Variable split_text : string → list string.
Variable embedding_distance : string → string → Z.
Variable llm_plan : string → list AgentStep → M W plan_result.
Variable initial_input : string → string → string → string.
Variable show_documents : list Document → string.

(** Lines 243-264 of main: the banner, the indexer and the index. *)
Definition startup (project_path_str : string) : M W CodeIndexer :=
  print "--- 🚀 Starting AI Refactoring Agent ---";;;
  let* indexer := CodeIndexer_init project_path_str in
  index_project split_text indexer.

(** Lines 456-523 of main: the try statement around the run of the agent. *)
Definition agent_phase (project_path schema_path : pathlib.Path)
    (indexer : CodeIndexer) : M W unit :=
  try_except2
    (let* schema_content := syscall (os_read_text (pathlib.to_string schema_path)) in
     let mapping_file_path :=
       pathlib.joinpath (pathlib.parent project_path) ["pages-components-list.txt"] in
     let* component_mapping_content :=
       syscall (os_read_text (pathlib.to_string mapping_file_path)) in
     print (nl +:+ "--- 🤖 Invoking Agent (This will take a while, and will auto-retry on server errors) ---" +:+ nl);;;
     let* result :=
       invoke (llm_plan (initial_input (pathlib.to_string project_path)
                                       schema_content component_mapping_content))
              (agent_executor embedding_distance show_documents (get_retriever indexer)) in
     print (nl +:+ "--- ✅ Agent execution finished! ---");;;
     print ("Final Output: " +:+ loop_output result))
    is_FileNotFoundError
    (λ e,
       print "❌ FATAL ERROR: A required file was not found. Please check your paths in the .env file and ensure pages-components-list.txt exists.";;;
       print ("Details: " +:+ str e))
    is_Exception
    (λ e,
       print (nl +:+ "❌ An unexpected error occurred during agent execution: " +:+ str e)).

End MainPhases.

(** ** Python strings

    A Python [str] is modelled by the bytes of its UTF-8 encoding. *)

Module pystr.

Definition byte (c : ascii) : N := N_of_ascii c.

(** The code points that [str.isspace] accepts, by the bytes of their
    encoding: U+0009-000D, U+001C-0020; U+0085, U+00A0; U+1680,
    U+2000-200A, U+2028, U+2029, U+202F, U+205F, U+3000. *)
Definition is_space1 (c : ascii) : bool :=
  ((9 <=? byte c) && (byte c <=? 13) || (28 <=? byte c) && (byte c <=? 32))%N%bool.

Definition is_space2 (c1 c2 : ascii) : bool :=
  ((byte c1 =? 194) && ((byte c2 =? 133) || (byte c2 =? 160)))%N%bool.

Definition is_space3 (c1 c2 c3 : ascii) : bool :=
  ((byte c1 =? 225) && (byte c2 =? 154) && (byte c3 =? 128)
   || (byte c1 =? 226) && (byte c2 =? 128)
      && ((128 <=? byte c3) && (byte c3 <=? 138)
          || (byte c3 =? 168) || (byte c3 =? 169) || (byte c3 =? 175))
   || (byte c1 =? 226) && (byte c2 =? 129) && (byte c3 =? 159)
   || (byte c1 =? 227) && (byte c2 =? 128) && (byte c3 =? 128))%N%bool.

(** Dropping the white space at the front of a text; with [mirror] the
    text is read backwards, so that the bytes of a code point come in
    reverse order. *)
Fixpoint drop_space (mirror : bool) (s : list ascii) : list ascii :=
  match s with
  | [] => []
  | c1 :: s1 =>
      if is_space1 c1 then drop_space mirror s1
      else
        match s1 with
        | [] => s
        | c2 :: s2 =>
            if (if mirror then is_space2 c2 c1 else is_space2 c1 c2)
            then drop_space mirror s2
            else
              match s2 with
              | [] => s
              | c3 :: s3 =>
                  if (if mirror then is_space3 c3 c2 c1 else is_space3 c1 c2 c3)
                  then drop_space mirror s3
                  else s
              end
        end
  end.

Definition strip_chars (s : list ascii) : list ascii :=
  rev (drop_space true (rev (drop_space false s))).

(** [s.strip()] *)
Definition strip (s : string) : string :=
  string_of_list_ascii (strip_chars (list_ascii_of_string s)).

(** The pieces of a text between the occurrences of the characters that
    [is_sep] accepts; [cur] is the piece being read, backwards. *)
Fixpoint split_chars (is_sep : ascii → bool) (cs cur : list ascii)
    : list (list ascii) :=
  match cs with
  | [] => [rev cur]
  | c :: cs' =>
      if is_sep c then rev cur :: split_chars is_sep cs' []
      else split_chars is_sep cs' (c :: cur)
  end.

(** [s.split(sep)] for a separator of one character *)
Definition split (sep : ascii) (s : string) : list string :=
  map string_of_list_ascii
      (split_chars (Ascii.eqb sep) (list_ascii_of_string s) []).

(** [re.split('[-_]', s)] *)
Definition split_dash_underscore (s : string) : list string :=
  map string_of_list_ascii
      (split_chars (λ c, (Ascii.eqb c "-" || Ascii.eqb c "_")%bool)
                   (list_ascii_of_string s) []).

Fixpoint starts_with (p s : list ascii) : bool :=
  match p, s with
  | [], _ => true
  | _ :: _, [] => false
  | a :: p', b :: s' => (Ascii.eqb a b && starts_with p' s')%bool
  end.

(** [s.startswith(p)] *)
Definition startswith (p s : string) : bool :=
  starts_with (list_ascii_of_string p) (list_ascii_of_string s).

Fixpoint contains_chars (needle hay : list ascii) : bool :=
  (starts_with needle hay
   || match hay with
      | [] => false
      | _ :: hay' => contains_chars needle hay'
      end)%bool.

(** [needle in hay] *)
Definition contains (needle hay : string) : bool :=
  contains_chars (list_ascii_of_string needle) (list_ascii_of_string hay).

Definition upper (c : ascii) : ascii :=
  if ((97 <=? byte c) && (byte c <=? 122))%N%bool
  then ascii_of_N (byte c - 32) else c.

Definition lower (c : ascii) : ascii :=
  if ((65 <=? byte c) && (byte c <=? 90))%N%bool
  then ascii_of_N (byte c + 32) else c.

(** [s.capitalize()] for a text of ASCII characters: the first character
    in upper case, the others in lower case. *)
Definition capitalize (s : string) : string :=
  match s with
  | EmptyString => EmptyString
  | String c rest =>
      String (upper c) (string_of_list_ascii (map lower (list_ascii_of_string rest)))
  end.

(** An ASCII character that is not white space. *)
Definition plain (c : ascii) : Prop := (byte c < 128)%N ∧ is_space1 c = false.

(** A text of ASCII characters. *)
Definition is_ascii (s : string) : Prop :=
  Forall (λ c, (byte c < 128)%N) (list_ascii_of_string s).

Fixpoint concat (l : list string) : string :=
  match l with
  | [] => ""
  | x :: l' => x +:+ concat l'
  end.

End pystr.

(** ** src/integration/gemini.py *)

(** A field of a content type and a content type of the schema export, by
    the keys that the script reads: [uid] and [data_type] of a field are
    read with [get] and may be missing; [schema] of a content type is read
    with [get] and a default; [uid] of a content type is read with a
    subscript, and every content type of the export carries one. *)
Record Field := { field_uid : option string; field_data_type : option string }.

Record ContentType := { ct_uid : string; ct_schema : option (list Field) }.

(** The two flags after the loop over the fields (lines 38-45). *)
Definition field_flags (fields : list Field) : bool * bool :=
  foldl (λ (flags : bool * bool) field,
           let has_url_field :=
             if (bool_decide (field_uid field = Some "url")
                 && bool_decide (field_data_type field = Some "text"))%bool
             then true else fst flags in
           let has_modular_blocks :=
             if bool_decide (field_data_type field = Some "modular_blocks")
             then true else snd flags in
           (has_url_field, has_modular_blocks))
        (false, false) fields.

(** lines 157-163 *)
Definition drop_opening_fence (lines : list string) : list string :=
  match lines with
  | first :: rest =>
      if (pystr.startswith "```" (pystr.strip first)
          || pystr.startswith "```typescript" (pystr.strip first))%bool
      then rest else lines
  | [] => lines
  end.

Definition drop_closing_fence (lines : list string) : list string :=
  match last lines with
  | Some final =>
      if String.eqb (pystr.strip final) "```" then removelast lines else lines
  | None => lines
  end.

Definition clean_gemini_response (response_text : string) : string :=
  join_lines
    (drop_closing_fence
       (drop_opening_fence (pystr.split "010"%char (pystr.strip response_text)))).

Section Gemini.
Context {W : Type}.

(** [model.generate_content(prompt)]: the text of the response, or None
    for a response without parts. *)
Variable generate_content : string → M W (option string).

(** lines 29-50 *)
Fixpoint find_page_content_type_uid_loop (schema_data : list ContentType) : M W string :=
  match schema_data with
  | [] =>
      print "     - WARNING: Could not auto-detect page content type. Falling back to 'page'.";;;
      ret "page"
  | ct :: rest =>
      let '(has_url_field, has_modular_blocks) :=
        field_flags (default [] (ct_schema ct)) in
      if (has_url_field && has_modular_blocks)%bool then
        print ("     - Found page content type: '" +:+ ct_uid ct +:+ "'");;;
        ret (ct_uid ct)
      else find_page_content_type_uid_loop rest
  end.

Definition find_page_content_type_uid (schema_data : list ContentType) : M W string :=
  print "   - Analyzing schema to find page content type UID...";;;
  find_page_content_type_uid_loop schema_data.

Fixpoint join_comma_space (l : list string) : string :=
  match l with
  | [] => ""
  | [x] => x
  | x :: l' => x +:+ ", " +:+ join_comma_space l'
  end.

(** The issues of lines 171-186. *)
Definition code_issues (code file_type : string) : list string :=
  ((if String.eqb file_type "query" then
      (if (pystr.contains "result.entries[0]" code
           && negb (pystr.contains "const entry = result.entries[0];" code))%bool
       then ["Missing entry extraction"] else [])
      ++ (if (pystr.contains "addEditableTags" code
              && negb (pystr.contains "entry" code))%bool
          then ["Using addEditableTags without proper entry extraction"] else [])
    else [])
   ++ (if String.eqb file_type "component" then
         (if (negb (pystr.contains "data?" code) && pystr.contains "data." code)%bool
          then ["Missing optional chaining"] else [])
         ++ (if (pystr.contains "Image" code && negb (pystr.contains "width" code))%bool
             then ["Missing required Image props"] else [])
         ++ (if (pystr.contains "data?.image?.url" code
                 && negb (pystr.contains "data?.image?.url &&" code))%bool
             then ["Missing conditional rendering for images"] else [])
       else []))%list.

(** lines 165-192; every caller passes a text ([str]). *)
Definition validate_generated_code (code file_type : string) : M W bool :=
  if String.eqb code "" then ret false
  else
    match code_issues code file_type with
    | [] => ret true
    | issues =>
        print ("    - WARNING: Generated code has issues: " +:+ join_comma_space issues);;;
        ret false
    end.

(** What one turn of the loop of make_api_call_with_retry decides. *)
Inductive turn_end :=
| Continue
| Return (value : option string).

(** lines 194-212, the turns [attempt], ..., [max_retries - 1] of the loop;
    [remaining] counts them.  time.sleep acts on no part of the state and is
    left out. *)
Fixpoint make_api_call_turns (remaining attempt max_retries : nat) (prompt : string)
    : M W (option string) :=
  match remaining with
  | 0 => ret None
  | S remaining' =>
      let* ended :=
        try_except
          (print ("    - Making Gemini API call (Attempt " +:+ pretty (attempt + 1)%nat
                  +:+ "/" +:+ pretty max_retries +:+ ")...");;;
           let* response := generate_content prompt in
           match response with
           | None =>
               print "    - Received an empty response from API. Retrying...";;;
               ret Continue
           | Some text => ret (Return (Some (clean_gemini_response text)))
           end)
          is_Exception
          (λ e,
             print ("    - API call failed: " +:+ str e);;;
             if pystr.contains "API key" (str e) then raise e
             else if (attempt <? max_retries - 1)%nat then ret Continue
             else
               print "    - Max retries reached. Skipping this file.";;;
               ret (Return None)) in
      match ended with
      | Return value => ret value
      | Continue => make_api_call_turns remaining' (S attempt) max_retries prompt
      end
  end.

Definition make_api_call_with_retry (prompt : string) (max_retries : nat)
    : M W (option string) :=
  make_api_call_turns max_retries 0 max_retries prompt.

End Gemini.

(** ** src/converter.py and src/converter1.py *)

(** lines 63-65 of converter.py; exact for texts of ASCII characters (see
    [pystr.capitalize]). *)
Definition to_pascal_case (text : string) : string :=
  pystr.concat (map pystr.capitalize (pystr.split_dash_underscore text)).

(** The first occurrence of three backticks in a text: what is before it
    and what is after it. *)
Fixpoint find_fence (s : list ascii) : option (list ascii * list ascii) :=
  match s with
  | [] => None
  | c :: s' =>
      if pystr.starts_with (list_ascii_of_string "```") s then Some ([], drop 3 s)
      else match find_fence s' with
           | Some (before, rest) => Some (c :: before, rest)
           | None => None
           end
  end.

(** [\w] on ASCII characters *)
Definition is_word (c : ascii) : bool :=
  ((48 <=? pystr.byte c) && (pystr.byte c <=? 57)
   || (65 <=? pystr.byte c) && (pystr.byte c <=? 90)
   || (97 <=? pystr.byte c) && (pystr.byte c <=? 122)
   || (pystr.byte c =? 95))%N%bool.

Fixpoint skip_word (s : list ascii) : list ascii :=
  match s with
  | c :: s' => if is_word c then skip_word s' else s
  | [] => []
  end.

(** The optional group [(?:\w*\n)?] in front of the captured text: a run
    of word characters followed by a newline is passed over, nothing
    otherwise. *)
Definition skip_language_line (inner : list ascii) : list ascii :=
  match skip_word inner with
  | c :: rest => if Ascii.eqb c "010"%char then rest else inner
  | [] => inner
  end.

(** lines 58-61 of converter.py: the search, with DOTALL, for three
    backticks, the optional language line, a greedy group of any
    characters and three backticks.  The leftmost match starts at the
    first three backticks; the greedy group ends at the last three
    backticks after them (three backticks read backwards are three
    backticks); without such a pair there is no match. *)
Definition clean_code_block (text : string) : string :=
  match find_fence (list_ascii_of_string text) with
  | Some (_, rest) =>
      match find_fence (rev rest) with
      | Some (_, inner_reversed) =>
          string_of_list_ascii
            (pystr.strip_chars (skip_language_line (rev inner_reversed)))
      | None => pystr.strip text
      end
  | None => pystr.strip text
  end.

(** A content type that has both a text field [url] and a field of modular
    blocks: what find_page_content_type_uid looks for. *)
Definition is_page_type (ct : ContentType) : Prop :=
  ∃ f1 f2,
    f1 ∈ default [] (ct_schema ct) ∧ f2 ∈ default [] (ct_schema ct)
    ∧ field_uid f1 = Some "url" ∧ field_data_type f1 = Some "text"
    ∧ field_data_type f2 = Some "modular_blocks".

(** The state after some lines were printed. *)
Definition printed {W} (s : state W) (lines : list string) : state W :=
  {| environ := environ s; os := os s; stdout := (stdout s ++ lines)%list;
     chroma := chroma s |}.

(** The two lines of a turn of make_api_call_with_retry that gets a
    response without parts. *)
Definition empty_turn_lines (max_retries attempt : nat) : list string :=
  [ "    - Making Gemini API call (Attempt " +:+ pretty (attempt + 1)%nat
    +:+ "/" +:+ pretty max_retries +:+ ")...";
    "    - Received an empty response from API. Retrying..." ].

(** A pattern component without wildcards. *)
Definition literal (pat : list ascii) : Prop :=
  Forall (λ c, Ascii.eqb c "*"%char = false ∧ Ascii.eqb c "?"%char = false) pat.

(** * Theorems *)

(** ** The tool layer *)

Section ToolFacts.
Context {W : Type} `{OS W}.

Ltac tool_unfold :=
  unfold read_file, write_file, list_directory, run_shell_command,
    subprocess_run, bind, getenv, try_except, lift_pure, syscall, ret, raise;
  simpl.

(** read_file returns a text in every state: the content or an error text. *)
Lemma read_file_total (file_path : string) (s : state W) :
  ∃ r s', read_file file_path s = (Ret r, s').
Proof.
  tool_unfold.
  destruct (posixpath.join (environ s !! "PROJECT_PATH") file_path) as [p|e]; simpl;
    [| eauto].
  destruct (os_read_text p (os s)) as [[c|e] w]; simpl; eauto.
Qed.

(** write_file returns a text in every state. *)
Lemma write_file_total (file_path content : string) (s : state W) :
  ∃ r s', write_file file_path content s = (Ret r, s').
Proof.
  tool_unfold.
  destruct (posixpath.join (environ s !! "PROJECT_PATH") file_path) as [p|e]; simpl;
    [| eauto].
  destruct (os_makedirs (posixpath.dirname p) (os s)) as [[[]|e] w]; simpl; [| eauto].
  destruct (os_write_text p content w) as [[[]|e] w']; simpl; eauto.
Qed.

(** list_directory returns a text in every state. *)
Lemma list_directory_total (path : string) (s : state W) :
  ∃ r s', list_directory path s = (Ret r, s').
Proof.
  tool_unfold.
  destruct (posixpath.join (environ s !! "PROJECT_PATH") path) as [p|e]; simpl;
    [| eauto].
  destruct (os_listdir p (os s)) as [[l|e] w]; simpl; eauto.
Qed.

Lemma join_absolute (root file_path : string) :
  posixpath.isabs file_path = true →
  posixpath.join (Some root) file_path = inl file_path.
Proof. unfold posixpath.isabs, posixpath.join. by intros ->. Qed.

(** What run_shell_command does, by the behaviour of the child. *)
Lemma run_shell_command_spec (command root : string) (s : state W) :
  environ s !! "PROJECT_PATH" = Some root →
  root ≠ "" →
  run_shell_command command s =
    (match fst (os_spawn root command (os s)) with
     | Exits _ rc out err =>
         Ret (if (rc =? 0)%Z then success_text out else failure_text rc out err)
     | ExitsUndecodable _ _ msg => Raise (Exc UnicodeDecodeError msg)
     | SpawnFails cls msg => Raise (Exc cls msg)
     | NeverExits => Hang
     end, set_os s (snd (os_spawn root command (os s)))).
Proof.
  intros Henv Hroot. tool_unfold. rewrite Henv. simpl.
  assert (String.eqb root "" = false) as -> by by apply String.eqb_neq.
  simpl. unfold set_os.
  destruct (os_spawn root command (os s)) as [b w]; simpl.
  destruct b as [d rc out err|d rc msg|cls msg|]; simpl; try done.
  destruct (rc =? 0)%Z; simpl; done.
Qed.

(** C9: for an absolute path argument and a configured project root,
    read_file, write_file and list_directory act on that very path: the
    root is dropped by the join, so that files outside the project tree are
    read, written and listed.  Each tool equals the system call made at
    [p] itself. *)
Theorem absolute_path_discards_project_root (root p content : string) (s : state W) :
  environ s !! "PROJECT_PATH" = Some root →
  posixpath.isabs p = true →
  read_file p s =
    (let '(r, w) := os_read_text p (os s) in
     (Ret (match r with
           | inl text => text
           | inr e => "Error reading file " +:+ p +:+ ": " +:+ str e
           end), set_os s w))
  ∧ write_file p content s =
    (let '(r1, w1) := os_makedirs (posixpath.dirname p) (os s) in
     match r1 with
     | inr e => (Ret ("Error writing to file " +:+ p +:+ ": " +:+ str e), set_os s w1)
     | inl _ =>
         let '(r2, w2) := os_write_text p content w1 in
         (Ret (match r2 with
               | inl _ => "Successfully wrote to " +:+ p +:+ "."
               | inr e => "Error writing to file " +:+ p +:+ ": " +:+ str e
               end), set_os s w2)
     end)
  ∧ list_directory p s =
    (let '(r, w) := os_listdir p (os s) in
     (Ret (match r with
           | inl files => join_lines files
           | inr e => "Error listing directory " +:+ p +:+ ": " +:+ str e
           end), set_os s w)).
Proof.
  intros Henv Habs. repeat split; tool_unfold; rewrite Henv;
    rewrite (join_absolute root p Habs); simpl; unfold set_os.
  - destruct (os_read_text p (os s)) as [[c|e] w]; done.
  - destruct (os_makedirs (posixpath.dirname p) (os s)) as [[[]|e] w]; simpl; [| done].
    destruct (os_write_text p content w) as [[[]|e] w']; done.
  - destruct (os_listdir p (os s)) as [[l|e] w]; done.
Qed.

(** C5, as amended: run_shell_command starts the command in the project
    root and passes no timeout; it returns when the command exits, however
    long that takes, a non-zero exit status giving a normal result with the
    exit code, stderr and stdout; while the command runs the call waits,
    without limit. *)
Theorem run_shell_command_waits_for_exit (command root : string) (s : state W) :
  environ s !! "PROJECT_PATH" = Some root →
  root ≠ "" →
  cwd (run_shell_command_kwargs root) = root
  ∧ timeout (run_shell_command_kwargs root) = None
  ∧ (∀ seconds rc out err,
       fst (os_spawn root command (os s)) = Exits seconds rc out err →
       fst (run_shell_command command s)
       = Ret (if (rc =? 0)%Z then success_text out else failure_text rc out err))
  ∧ (fst (os_spawn root command (os s)) = NeverExits →
     fst (run_shell_command command s) = Hang).
Proof.
  intros Henv Hroot. split; [done|]. split; [done|].
  rewrite (run_shell_command_spec command root s Henv Hroot). simpl.
  split.
  - by intros seconds rc out err ->.
  - by intros ->.
Qed.

Lemma reports_pass_success (out : string) : reports_pass (success_text out) = true.
Proof. reflexivity. Qed.

Lemma reports_pass_failure (rc : Z) (out err : string) :
  reports_pass (failure_text rc out err) = false.
Proof. reflexivity. Qed.

(** C3, as amended: when the type-checker runs to its exit,
    validate_typescript_code reports a pass if and only if the exit status
    is zero, whatever was printed; the result of a pass carries the captured
    stdout, and a non-zero exit status is reported as a failure that carries
    the exit code and the raw stderr and stdout. *)
Theorem validate_passes_iff_exit_zero (root : string) (s : state W)
    (seconds : nat) (rc : Z) (out err : string) :
  environ s !! "PROJECT_PATH" = Some root →
  root ≠ "" →
  fst (os_spawn root "npx tsc --noEmit" (os s)) = Exits seconds rc out err →
  ∃ result,
    fst (validate_typescript_code s) = Ret result
    ∧ (reports_pass result = true ↔ rc = 0%Z)
    ∧ (rc = 0%Z → result = success_text out)
    ∧ (rc ≠ 0%Z → result = failure_text rc out err).
Proof.
  intros Henv Hroot Hrun. unfold validate_typescript_code.
  rewrite (run_shell_command_spec _ root s Henv Hroot). simpl. rewrite Hrun.
  destruct (Z.eqb_spec rc 0) as [->|Hrc].
  - exists (success_text out). rewrite reports_pass_success. done.
  - exists (failure_text rc out err). rewrite reports_pass_failure.
    repeat split; done.
Qed.

End ToolFacts.

(** *** The tools on the example system *)

(** Witness of C9: /etc/hostname lies outside the project /home/dev/site
    and is read and overwritten through the tools. *)
Lemma absolute_path_discards_project_root_witness :
  environ Example.site_state !! "PROJECT_PATH" = Some "/home/dev/site"
  ∧ posixpath.isabs "/etc/hostname" = true
  ∧ fst (read_file "/etc/hostname" Example.site_state) = Ret "devbox"
  ∧ fst (write_file "/etc/hostname" "pwned" Example.site_state)
    = Ret "Successfully wrote to /etc/hostname."
  ∧ fst (list_directory "/etc" Example.site_state) = Ret "hostname".
Proof.
  split; [reflexivity|]. split; [reflexivity|].
  destruct (absolute_path_discards_project_root
              "/home/dev/site" "/etc/hostname" "pwned" Example.site_state
              eq_refl eq_refl) as (Hread & Hwrite & _).
  destruct (absolute_path_discards_project_root
              "/home/dev/site" "/etc" "" Example.site_state
              eq_refl eq_refl) as (_ & _ & Hlist).
  rewrite Hread, Hwrite, Hlist. repeat split; reflexivity.
Defined.

(** The file written through an absolute path is the file outside the
    project. *)
Example write_outside_project :
  Example.files (os (snd (write_file "/etc/hostname" "pwned" Example.site_state)))
    !! "/etc/hostname" = Some "pwned".
Proof. vm_compute. reflexivity. Qed.

(** Witness of C5 as amended: the command [false] exits with status 1. *)
Lemma run_shell_command_waits_for_exit_witness :
  environ Example.site_state !! "PROJECT_PATH" = Some "/home/dev/site"
  ∧ "/home/dev/site" ≠ ""
  ∧ fst (run_shell_command "false" Example.site_state) = Ret (failure_text 1 "" "").
Proof.
  split; [reflexivity|]. split; [discriminate|].
  destruct (run_shell_command_waits_for_exit "false" "/home/dev/site"
              Example.site_state eq_refl) as (_ & _ & Hexit & _).
  - discriminate.
  - exact (Hexit 0%nat 1%Z "" "" eq_refl).
Defined.

(** C5, counterexample: no timeout is passed to subprocess.run, and a
    command that never exits keeps run_shell_command from returning. *)
Lemma hanging_command_blocks_run_shell_command :
  timeout (run_shell_command_kwargs "/home/dev/site") = None
  ∧ fst (os_spawn "/home/dev/site" "npm run dev" Example.site) = NeverExits
  ∧ fst (run_shell_command "npm run dev" Example.site_state) = Hang.
Proof. vm_compute. repeat split; reflexivity. Qed.

(** Witness of C3 as amended: the checker exits with status 0 after a
    warning on stderr. *)
Lemma validate_passes_iff_exit_zero_witness :
  environ Example.site_state !! "PROJECT_PATH" = Some "/home/dev/site"
  ∧ "/home/dev/site" ≠ ""
  ∧ ∃ result,
      fst (validate_typescript_code Example.site_state) = Ret result
      ∧ (reports_pass result = true ↔ 0%Z = 0%Z)
      ∧ (0%Z = 0%Z → result = success_text "")
      ∧ (0%Z ≠ 0%Z → result = failure_text 0 ""
                       "npm warn config production Use `--omit=dev` instead.").
Proof.
  split; [reflexivity|]. split; [discriminate|].
  apply (validate_passes_iff_exit_zero "/home/dev/site" Example.site_state 4 0 ""
           "npm warn config production Use `--omit=dev` instead.").
  - reflexivity.
  - discriminate.
  - reflexivity.
Defined.

(** C3, counterexample: the checker exits with status 0 and writes a
    warning; the specification's pass does not hold, its output not being
    empty, yet the result reports a pass, and the warning is not in it. *)
Lemma validate_reports_pass_despite_diagnostics :
  fst (os_spawn "/home/dev/site" "npx tsc --noEmit" Example.site)
  = Exits 4 0 "" "npm warn config production Use `--omit=dev` instead."
  ∧ spec_pass (Exits 4 0 "" "npm warn config production Use `--omit=dev` instead.")
    = false
  ∧ fst (validate_typescript_code Example.site_state) = Ret (success_text "")
  ∧ reports_pass (success_text "") = true.
Proof. vm_compute. repeat split; reflexivity. Qed.

(** C4, at the failing input: the output of the command is not text in the
    locale's encoding; subprocess.run raises UnicodeDecodeError, the handler
    of run_shell_command catches CalledProcessError only, and the exception
    leaves the tool. *)
Theorem run_shell_command_raises_on_undecodable_output :
  fst (run_shell_command "cat public/logo.png" Example.site_state)
  = Raise (Exc UnicodeDecodeError
             "'utf-8' codec can't decode byte 0x89 in position 0: invalid start byte").
Proof. vm_compute. reflexivity. Qed.

(** ** The indexer *)

(** A pattern component without wildcards matches its own text only. *)
Lemma fnmatch_literal (pat name : list ascii) :
  literal pat → pathlib.fnmatch_chars pat name = true → name = pat.
Proof.
  intros Hlit. revert name.
  induction Hlit as [|c pat [Hstar Hany] Hlit IH]; intros name Hmatch.
  - by destruct name.
  - simpl in Hmatch. rewrite Hstar, Hany in Hmatch. simpl in Hmatch.
    destruct name as [|d name]; [done|].
    apply andb_true_iff in Hmatch as [Hc Hrest].
    apply Ascii.eqb_eq in Hc as ->. f_equal. by apply IH.
Qed.

Lemma fnmatch_star_literal (pat name : list ascii) :
  literal pat →
  pathlib.fnmatch_chars ("*"%char :: pat) name = true →
  ∃ stem, name = (stem ++ pat)%list.
Proof.
  intros Hlit. induction name as [|c name IH]; intros Hmatch.
  - simpl in Hmatch. rewrite orb_false_r in Hmatch.
    exists []. by apply fnmatch_literal.
  - simpl in Hmatch. apply orb_true_iff in Hmatch as [Hhere|Hlater].
    + exists []. by apply fnmatch_literal.
    + destruct (IH Hlater) as [stem ->]. by exists (c :: stem).
Qed.

Lemma string_of_list_ascii_app (a b : list ascii) :
  string_of_list_ascii (a ++ b) = string_of_list_ascii a +:+ string_of_list_ascii b.
Proof. induction a as [|c a IH]; simpl; [done | by rewrite IH]. Qed.

(** What the pattern of index_project selects: only paths whose last name
    ends in the literal text [.{ts,tsx}], braces and comma included. *)
Lemma loader_pattern_selects (rel : list string) :
  pathlib.glob_match "**/*.{ts,tsx}" rel = true →
  ∃ dirs stem, rel = (dirs ++ [stem +:+ ".{ts,tsx}"])%list.
Proof.
  unfold pathlib.glob_match.
  change (pathlib.names (pathlib.of_string "**/*.{ts,tsx}")) with ["**"; "*.{ts,tsx}"].
  simpl. induction rel as [|n rel IH]; intros Hmatch; [done|].
  apply orb_true_iff in Hmatch as [Hhere|Hlater].
  - apply andb_true_iff in Hhere as [Hname Hend].
    destruct rel; [|done].
    apply fnmatch_star_literal in Hname as [stem Hstem];
      [| repeat constructor].
    exists [], (string_of_list_ascii stem). simpl.
    rewrite <- (string_of_list_ascii_of_string n), Hstem.
    by rewrite string_of_list_ascii_app.
  - destruct (IH Hlater) as (dirs & stem & ->). by exists (n :: dirs), stem.
Qed.

Section IndexerFacts.
Context {W : Type} `{OS W}.
Variable split_text : string → list string.
Variable embedding_distance : string → string → Z.

Lemma split_documents_nil : split_documents split_text [] = [].
Proof. reflexivity. Qed.

Lemma collection_insert (s : state W) (d : string) (l : list Document) :
  collection (set_chroma s (<[d := l]> (chroma s))) d = l.
Proof. unfold collection, set_chroma. simpl. by rewrite lookup_insert_eq. Qed.

(** index_project, given what the scan of the project tree yields: the
    warning when no document is left, and otherwise the ValueError of
    from_language, whose argument typescript is no value of Language. *)
Lemma index_project_spec (self : CodeIndexer) (s : state W)
    (docs : list Document) (w1 : W) :
  DirectoryLoader_scan (pathlib.to_string (project_path self)) "**/*.{ts,tsx}" (os s)
  = (inl docs, w1) →
  let line1 := "🔍 Indexing project files from: "
               +:+ pathlib.to_string (project_path self) +:+ "..." in
  index_project split_text self s =
    match visible_documents docs with
    | [] =>
        (Ret self,
         {| environ := environ s; os := w1;
            stdout := (stdout s ++ [line1]) ++ [no_documents_warning];
            chroma := chroma s |})
    | _ =>
        (Raise (Exc ValueError "Language typescript is not supported!"),
         {| environ := environ s; os := w1;
            stdout := stdout s ++ [line1];
            chroma := chroma s |})
    end.
Proof.
  intros Hscan line1.
  unfold index_project, DirectoryLoader_load, bind, print, syscall, ret. simpl.
  rewrite Hscan. simpl.
  destruct (visible_documents docs) as [|doc rest]; [done|].
  reflexivity.
Qed.

Lemma collection_insert_ne (s : state W) (d d' : string) (l : list Document) :
  d ≠ d' → collection (set_chroma s (<[d := l]> (chroma s))) d' = collection s d'.
Proof. intros Hne. unfold collection, set_chroma. simpl. by rewrite lookup_insert_ne. Qed.

(** Opening a store keeps every collection. *)
Lemma Chroma_open_keeps (d d' : string) (s : state W) :
  collection (snd (Chroma_open d s)) d' = collection s d'.
Proof.
  unfold Chroma_open. simpl. destruct (decide (d = d')) as [->|Hne].
  - apply collection_insert.
  - by apply collection_insert_ne.
Qed.

(** Whatever the scan finds and whatever from_language answers,
    index_project takes nothing out of a collection. *)
Lemma index_project_keeps (self : CodeIndexer) (s : state W) (d : string) :
  ∃ new, collection (snd (index_project split_text self s)) d
         = (collection s d ++ new)%list.
Proof.
  unfold index_project, DirectoryLoader_load, bind, print, syscall, ret.
  cbn [fst snd].
  destruct (DirectoryLoader_scan _ _ _) as [[docs|e] w1]; cbn [of_sysres].
  - destruct (visible_documents docs) as [|doc rest].
    + exists []. by rewrite app_nil_r.
    + unfold RecursiveCharacterTextSplitter_from_language, raise, ret.
      destruct (bool_decide ("typescript" ∈ Language)).
      * cbn [Chroma_from_documents fst snd].
        destruct (decide (pathlib.to_string (vector_store_path self) = d)) as [<-|Hne].
        -- eexists. unfold collection at 1. cbn. rewrite lookup_insert_eq. reflexivity.
        -- exists []. rewrite app_nil_r. unfold collection. cbn.
           by rewrite lookup_insert_ne.
      * exists []. by rewrite app_nil_r.
  - exists []. by rewrite app_nil_r.
Qed.

(** C6, as amended: indexing again replaces nothing.  However the run ends,
    and whether the indexer is the one at hand or is built anew over the
    persisted directory as main does, every collection holds afterwards
    what it held before, in the same order, in front of whatever the run
    stored. *)
Theorem index_project_keeps_persisted_chunks (project_path_str : string)
    (self : CodeIndexer) (s : state W) (d : string) :
  (∃ new, collection (snd (index_project split_text self s)) d
          = (collection s d ++ new)%list)
  ∧ (∃ new, collection
              (snd ((let* indexer := CodeIndexer_init project_path_str in
                     index_project split_text indexer) s)) d
            = (collection s d ++ new)%list).
Proof.
  split; [apply index_project_keeps|].
  pose proof (Chroma_open_keeps
                (pathlib.to_string
                   (pathlib.joinpath (pathlib.parent (pathlib.of_string project_path_str))
                      [".agent_vector_store"])) d s) as Hkeep.
  unfold CodeIndexer_init, bind, ret. unfold Chroma_open in *.
  cbn [fst snd] in *. rewrite <- Hkeep. apply index_project_keeps.
Qed.

Lemma similarity_search_nil (query : string) (k : nat) :
  similarity_search embedding_distance [] query k = [].
Proof. unfold similarity_search. simpl. by destruct k. Qed.

(** C8, as amended: when the scan yields no document outside node_modules,
    index_project prints the warning and returns without an exception and
    without touching the store, which stays as it was opened from its
    directory; if that collection is empty, every query of the retriever
    returns the empty list. *)
Theorem index_without_documents_keeps_store (self : CodeIndexer) (s : state W)
    (docs : list Document) (w1 : W) :
  DirectoryLoader_scan (pathlib.to_string (project_path self)) "**/*.{ts,tsx}" (os s)
  = (inl docs, w1) →
  visible_documents docs = [] →
  ∃ s',
    index_project split_text self s = (Ret self, s')
    ∧ last (stdout s') = Some no_documents_warning
    ∧ chroma s' = chroma s
    ∧ (collection s (vector_store self) = [] →
       ∀ query,
         get_relevant_documents embedding_distance (get_retriever self) query s'
         = (Ret [], s')).
Proof.
  intros Hscan Hnone. rewrite (index_project_spec self s docs w1 Hscan), Hnone.
  eexists. split; [reflexivity|]. simpl. split; [by rewrite last_snoc|].
  split; [reflexivity|].
  intros Hempty query. unfold get_relevant_documents, get_retriever. simpl.
  unfold collection in *. simpl. rewrite Hempty.
  by rewrite similarity_search_nil.
Qed.

End IndexerFacts.

(** C6, counterexample: the store directory holds a chunk of an earlier
    run.  Where the scan finds a file, index_project ends with the
    ValueError of from_language and the store holds the old chunk, not the
    chunk of the file; where the scan finds none, index_project returns and
    the store holds the old chunk, although the current scan produced no
    chunk at all. *)
Lemma reindex_keeps_old_chunks :
  DirectoryLoader_scan "/home/dev/site" "**/*.{ts,tsx}" Example.legacy_site
  = (inl [ {| page_content := "export const old = 0;";
              source := "/home/dev/site/legacy.{ts,tsx}" |} ], Example.legacy_site)
  ∧ split_documents Example.whole_text
      (visible_documents
         [ {| page_content := "export const old = 0;";
              source := "/home/dev/site/legacy.{ts,tsx}" |} ])
    = [ {| page_content := "export const old = 0;";
           source := "/home/dev/site/legacy.{ts,tsx}" |} ]
  ∧ (∃ msg,
       fst (index_project Example.whole_text Example.site_indexer
              (Example.stale_store Example.legacy_site))
       = Raise (Exc ValueError msg))
  ∧ collection
      (snd (index_project Example.whole_text Example.site_indexer
              (Example.stale_store Example.legacy_site)))
      "/home/dev/.agent_vector_store"
    = [ Example.old_chunk ]
  ∧ DirectoryLoader_scan "/home/dev/site" "**/*.{ts,tsx}" Example.site
    = (inl [], Example.site)
  ∧ fst (index_project Example.whole_text Example.site_indexer
           (Example.stale_store Example.site))
    = Ret Example.site_indexer
  ∧ collection
      (snd (index_project Example.whole_text Example.site_indexer
              (Example.stale_store Example.site)))
      "/home/dev/.agent_vector_store"
    = [ Example.old_chunk ].
Proof.
  split; [vm_compute; reflexivity|]. split; [vm_compute; reflexivity|].
  split; [eexists; vm_compute; reflexivity|].
  vm_compute. repeat split; reflexivity.
Qed.

(** C7, at the failing input: the project holds src/app/page.tsx and
    src/lib/util.ts, yet the pattern of the loader, whose braces stand for
    themselves, selects neither; the scan yields no document, index_project
    prints the warning and the store stays empty. *)
Theorem index_project_finds_no_typescript_file :
  os_tree "/home/dev/site" Example.site
  = inl [ (["src"], false); (["src"; "app"], false);
          (["src"; "app"; "page.tsx"], true);
          (["src"; "lib"], false); (["src"; "lib"; "util.ts"], true);
          (["node_modules"], false); (["node_modules"; "react"], false);
          (["node_modules"; "react"; "index.ts"], true) ]
  ∧ pathlib.fnmatch "*.{ts,tsx}" "page.tsx" = false
  ∧ pathlib.fnmatch "*.{ts,tsx}" "util.ts" = false
  ∧ DirectoryLoader_scan "/home/dev/site" "**/*.{ts,tsx}" Example.site
    = (inl [], Example.site)
  ∧ fst (index_project Example.whole_text Example.site_indexer Example.site_state)
    = Ret Example.site_indexer
  ∧ last (stdout (snd (index_project Example.whole_text Example.site_indexer
                         Example.site_state)))
    = Some no_documents_warning
  ∧ collection (snd (index_project Example.whole_text Example.site_indexer
                       Example.site_state))
      "/home/dev/.agent_vector_store" = [].
Proof. vm_compute. repeat split; reflexivity. Qed.

(** Witness of C8 as amended: the scan of the example project yields no
    document and the store directory is fresh. *)
Lemma index_without_documents_keeps_store_witness :
  DirectoryLoader_scan "/home/dev/site" "**/*.{ts,tsx}" Example.site
  = (inl [], Example.site)
  ∧ visible_documents [] = []
  ∧ ∃ s',
      index_project Example.whole_text Example.site_indexer Example.site_state
      = (Ret Example.site_indexer, s')
      ∧ last (stdout s') = Some no_documents_warning
      ∧ chroma s' = chroma Example.site_state
      ∧ (collection Example.site_state (vector_store Example.site_indexer) = [] →
         ∀ query,
           get_relevant_documents Example.flat_distance
             (get_retriever Example.site_indexer) query s'
           = (Ret [], s')).
Proof.
  split; [vm_compute; reflexivity|]. split; [reflexivity|].
  apply (index_without_documents_keeps_store Example.whole_text Example.flat_distance
           Example.site_indexer Example.site_state [] Example.site).
  - vm_compute. reflexivity.
  - reflexivity.
Defined.

(** C8, counterexample: the store directory holds a chunk of an earlier
    run; the scan finds no file, index_project leaves the store as it is,
    not empty, and the retriever returns the old chunk. *)
Lemma stale_store_survives_empty_index :
  DirectoryLoader_scan "/home/dev/site" "**/*.{ts,tsx}" Example.site
  = (inl [], Example.site)
  ∧ collection
      (snd (index_project Example.whole_text Example.site_indexer
              (Example.stale_store Example.site)))
      "/home/dev/.agent_vector_store"
    = [ Example.old_chunk ]
  ∧ fst (Example.index_then_retrieve "header component"
           (Example.stale_store Example.site))
    = Ret [ Example.old_chunk ].
Proof. vm_compute. repeat split; reflexivity. Qed.

Example CodeIndexer_init_site :
  fst (CodeIndexer_init "/home/dev/site" Example.site_state) = Ret Example.site_indexer.
Proof. vm_compute. reflexivity. Qed.

(** ** The agent loop *)

Section LoopFacts.
Context {W : Type}.
Local Open Scope nat_scope.
Local Open Scope list_scope.
Variable plan : list AgentStep → M W plan_result.
Variable executor : AgentExecutor W.

Lemma iteration_exhausted (i : nat) (steps : list AgentStep) (s : state W) :
  max_iterations executor ≤ i →
  iteration plan executor (PLANNING i steps) s = (Ret (DONE stopped_response steps), s).
Proof.
  intros Hle. unfold iteration.
  destruct (Nat.leb_spec (max_iterations executor) i); [done | lia].
Qed.

Lemma iteration_turn (i : nat) (steps : list AgentStep) (s s1 : state W)
    (next : string + list AgentStep) :
  i < max_iterations executor →
  take_next_step plan executor steps s = (Ret next, s1) →
  iteration plan executor (PLANNING i steps) s =
    (Ret (match next with
          | inl output => DONE output steps
          | inr new_steps => PLANNING (S i) (steps ++ new_steps)
          end), s1).
Proof.
  intros Hlt Hnext. unfold iteration.
  destruct (Nat.leb_spec (max_iterations executor) i); [lia|].
  unfold bind. rewrite Hnext. by destruct next.
Qed.

Lemma run_continues (fuel i : nat) (steps : list AgentStep) (st : loop_state)
    (s s1 : state W) :
  iteration plan executor st s = (Ret (PLANNING i steps), s1) →
  run plan executor (S fuel) st s = run plan executor fuel (PLANNING i steps) s1.
Proof. intros Hit. simpl. unfold bind. by rewrite Hit. Qed.

Lemma run_stops (fuel : nat) (output : string) (steps : list AgentStep)
    (st : loop_state) (s s1 : state W) :
  iteration plan executor st s = (Ret (DONE output steps), s1) →
  run plan executor (S fuel) st s = (Ret (DONE output steps), s1).
Proof. intros Hit. simpl. unfold bind. by rewrite Hit. Qed.

(** With handle_parsing_errors, a payload that does not parse costs one
    turn and adds the corrective entry to the transcript. *)
Lemma unparsable_turn (i : nat) (steps : list AgentStep) (s s1 : state W)
    (llm_output : string) :
  handle_parsing_errors executor = true →
  i < max_iterations executor →
  plan steps s = (Ret (Unparsable llm_output), s1) →
  iteration plan executor (PLANNING i steps) s
  = (Ret (PLANNING (S i) (steps ++ [corrective_step llm_output])), s1).
Proof.
  intros Hflag Hlt Hplan.
  rewrite (iteration_turn i steps s s1 (inr [corrective_step llm_output]) Hlt); [done|].
  unfold take_next_step, bind. rewrite Hplan, Hflag. reflexivity.
Qed.

(** A turn whose calls return leaves the loop in PLANNING with one more
    entry, or DONE with the final answer of the policy. *)
Lemma turn_returns (steps : list AgentStep) (s : state W) :
  handle_parsing_errors executor = true →
  (∃ decision s1,
     plan steps s = (Ret decision, s1)
     ∧ ∀ a t, decision = Act a → lookup_tool executor (tool a) = Some t →
         ∃ obs s2, func t (action_input a) s1 = (Ret obs, s2)) →
  ∃ next s1,
    take_next_step plan executor steps s = (Ret next, s1)
    ∧ match next with
      | inl output => ∃ s0 s2, plan steps s0 = (Ret (Finish output), s2)
      | inr new_steps => length new_steps = 1
      end.
Proof.
  intros Hflag (decision & s1 & Hplan & Htool).
  unfold take_next_step, bind. rewrite Hplan.
  destruct decision as [a|output|llm_output].
  - destruct (lookup_tool executor (tool a)) as [t|] eqn:Hlookup.
    + destruct (Htool a t eq_refl Hlookup) as (obs & s2 & Hobs).
      rewrite Hobs. eexists (inr _), _. split; [reflexivity|]. reflexivity.
    + eexists (inr _), _. split; [reflexivity|]. reflexivity.
  - exists (inl output), s1. split; [reflexivity|]. eauto.
  - rewrite Hflag. eexists (inr _), _. split; [reflexivity|]. reflexivity.
Qed.

(** When every call returns wherever it is made, the calls of each run do. *)
Lemma calls_return_of_run :
  calls_return plan executor →
  ∀ n steps s, calls_of_run_return plan executor n steps s.
Proof.
  intros Hcalls n. induction n as [|n IH]; intros steps s; [exact I|].
  split; [apply Hcalls | intros new_steps s' _; apply IH].
Qed.

(** From PLANNING, with fuel for the turns that the budget leaves, a run
    whose calls return reaches DONE. *)
Lemma run_reaches_DONE :
  handle_parsing_errors executor = true →
  ∀ (n i : nat) (steps : list AgentStep) (s : state W),
    max_iterations executor ≤ i + n →
    calls_of_run_return plan executor n steps s →
    ∃ output steps' s',
      run plan executor (S n) (PLANNING i steps) s = (Ret (DONE output steps'), s')
      ∧ length steps' ≤ length steps + (max_iterations executor - i)
      ∧ ((output = stopped_response
          ∧ length steps' = length steps + (max_iterations executor - i))
         ∨ ∃ s0 s2, plan steps' s0 = (Ret (Finish output), s2)).
Proof.
  intros Hflag n.
  induction n as [|n IH]; intros i steps s Hle Hcalls.
  - exists stopped_response, steps, s.
    rewrite (run_stops 0 stopped_response steps _ s s);
      [| apply iteration_exhausted; lia].
    split; [done|]. split; [lia|]. left. split; [done | lia].
  - destruct (Nat.leb_spec (max_iterations executor) i) as [Hmax|Hlt].
    + exists stopped_response, steps, s.
      rewrite (run_stops (S n) stopped_response steps _ s s);
        [| by apply iteration_exhausted].
      split; [done|]. split; [lia|]. left. split; [done | lia].
    + destruct Hcalls as [Hturn Hrest].
      destruct (turn_returns steps s Hflag Hturn) as (next & s1 & Hnext & Hshape).
      pose proof (iteration_turn i steps s s1 next Hlt Hnext) as Hit.
      destruct next as [output|new_steps].
      * exists output, steps, s1.
        rewrite (run_stops (S n) output steps _ s s1 Hit).
        split; [done|]. split; [lia|]. by right.
      * rewrite (run_continues (S n) (S i) (steps ++ new_steps) _ s s1 Hit).
        destruct (IH (S i) (steps ++ new_steps)%list s1) as
          (output & steps' & s' & Hrun & Hlen & Hend);
          [lia | by apply Hrest |].
        exists output, steps', s'. split; [done|].
        rewrite length_app, Hshape in Hlen, Hend.
        split; [lia|].
        destruct Hend as [[Hout Heq]|Hfin]; [left; split; [done | lia] | by right].
Qed.

End LoopFacts.

(** ** The loop as main configures it, and main *)

Section MainFacts.
Context {W : Type} `{OS W}.
Variable split_text : string → list string.
Variable embedding_distance : string → string → Z.
Variable llm_plan : string → list AgentStep → M W plan_result.
Variable initial_input : string → string → string → string.
Variable show_documents : list Document → string.
Local Open Scope nat_scope.
Local Open Scope list_scope.

Local Abbreviation configured retriever :=
  (agent_executor embedding_distance show_documents retriever).

(** C1: while the loop of main's executor is running (the budget of 15000
    turns is not used up), a payload of the policy that does not parse does
    not end the run and raises nothing: the turn returns to PLANNING with
    the corrective entry appended to the transcript, and the run goes on
    from there. *)
Theorem malformed_action_keeps_loop_alive (retriever : Retriever)
    (plan : list AgentStep → M W plan_result)
    (i : nat) (steps : list AgentStep) (s s1 : state W) (llm_output : string) :
  i < max_iterations (configured retriever) →
  plan steps s = (Ret (Unparsable llm_output), s1) →
  iteration plan (configured retriever) (PLANNING i steps) s
  = (Ret (PLANNING (S i) (steps ++ [corrective_step llm_output])), s1)
  ∧ observation (corrective_step llm_output) = corrective_observation
  ∧ ∀ fuel,
      run plan (configured retriever) (S fuel) (PLANNING i steps) s
      = run plan (configured retriever) fuel
          (PLANNING (S i) (steps ++ [corrective_step llm_output])) s1.
Proof.
  intros Hlt Hplan.
  pose proof (unparsable_turn plan (configured retriever) i steps s s1 llm_output
                eq_refl Hlt Hplan) as Hturn.
  split; [exact Hturn|]. split; [reflexivity|].
  intros fuel. by apply run_continues.
Qed.

(** C2, as amended: every run of the loop of main's executor in which the
    calls of the policy and of the tools that the run makes return reaches
    DONE: by a final answer of the policy, or with the stopped response once
    the budget of 15000 turns is used up, a returned result that keeps the
    transcript of 15000 entries; the transcript never has more entries than
    the budget.  Nothing is asked of calls that the run does not make. *)
Theorem agent_loop_reaches_DONE (retriever : Retriever)
    (plan : list AgentStep → M W plan_result) (s : state W) :
  calls_of_run_return plan (configured retriever)
    (max_iterations (configured retriever)) [] s →
  Z.of_nat (max_iterations (configured retriever)) = 15000%Z
  ∧ ∃ output steps s',
      invoke plan (configured retriever) s = (Ret (DONE output steps), s')
      ∧ length steps ≤ max_iterations (configured retriever)
      ∧ ((output = stopped_response
          ∧ length steps = max_iterations (configured retriever))
         ∨ ∃ s0 s2, plan steps s0 = (Ret (Finish output), s2)).
Proof.
  intros Hcalls. split; [reflexivity|].
  destruct (run_reaches_DONE plan (configured retriever) eq_refl
              (max_iterations (configured retriever)) 0 [] s)
    as (output & steps & s' & Hrun & Hlen & Hend); [lia | exact Hcalls |].
  exists output, steps, s'. split; [exact Hrun|].
  simpl length in Hlen, Hend. rewrite Nat.sub_0_r in Hlen, Hend.
  split; [exact Hlen|].
  destruct Hend as [[Hout Heq]|Hfin]; [left; by split | by right].
Qed.

(** C10: with PROJECT_PATH and GEMINI_API_KEY set and SCHEMA_JSON_PATH
    unset, main raises TypeError when it builds the schema path; the guard
    message is not printed, nothing at all is printed, the store is not
    opened and the policy is never asked: the state is the one main started
    in. *)
Theorem main_raises_TypeError_without_schema_path (s : state W) (root key : string) :
  environ s !! "PROJECT_PATH" = Some root →
  root ≠ "" →
  environ s !! "GEMINI_API_KEY" = Some key →
  key ≠ "" →
  environ s !! "SCHEMA_JSON_PATH" = None →
  main split_text embedding_distance llm_plan initial_input show_documents s
  = (Raise (Exc TypeError "expected str, bytes or os.PathLike object, not NoneType"), s).
Proof.
  intros Hroot Hroot_ne Hkey Hkey_ne Hschema.
  unfold main, bind, getenv. rewrite Hroot, Hkey, Hschema. simpl.
  assert (String.eqb root "" = false) as -> by by apply String.eqb_neq.
  assert (String.eqb key "" = false) as -> by by apply String.eqb_neq.
  reflexivity.
Qed.

(** The guarded exit, for comparison: without PROJECT_PATH main prints the
    configuration message and returns. *)
Lemma main_guarded_exit (s : state W) :
  environ s !! "PROJECT_PATH" = None →
  main split_text embedding_distance llm_plan initial_input show_documents s
  = (Ret tt,
     {| environ := environ s; os := os s;
        stdout := stdout s
          ++ ["❌ Error: Please set PROJECT_PATH and GEMINI_API_KEY in your .env file."];
        chroma := chroma s |}).
Proof. intros Hroot. unfold main, bind, getenv. rewrite Hroot. reflexivity. Qed.

End MainFacts.

(** Witness of C1: the first answer of a policy that never produces an
    action. *)
Lemma malformed_action_keeps_loop_alive_witness :
  (0 < max_iterations
         (agent_executor Example.flat_distance (λ _, "") (get_retriever Example.site_indexer)))%nat
  ∧ iteration Example.babbling
      (agent_executor Example.flat_distance (λ _, "") (get_retriever Example.site_indexer))
      (PLANNING 0 []) Example.site_state
    = (Ret (PLANNING 1 [corrective_step "I think we should start with the schema."]),
       Example.site_state).
Proof.
  assert (0 < max_iterations
                (agent_executor (W := Example.world) Example.flat_distance (λ _, "")
                   (get_retriever Example.site_indexer)))%nat as Hlt
    by (cbn [max_iterations agent_executor]; lia).
  split; [exact Hlt|].
  exact (proj1 (malformed_action_keeps_loop_alive Example.flat_distance (λ _, "")
                  (get_retriever Example.site_indexer) Example.babbling
                  0 [] Example.site_state Example.site_state
                  "I think we should start with the schema." Hlt eq_refl)).
Defined.

(** Witness of C2 as amended: the policy has the project type-checked,
    the command exits, and the policy gives its final answer; of the budget
    one turn is used. *)
Lemma agent_loop_reaches_DONE_witness :
  ∃ output steps s',
    invoke Example.validates_then_finishes
      (agent_executor Example.flat_distance (λ _, "") (get_retriever Example.site_indexer))
      Example.site_state = (Ret (DONE output steps), s')
    ∧ (Z.of_nat (length steps) ≤ 15000)%Z
    ∧ ((output = stopped_response ∧ Z.of_nat (length steps) = 15000%Z)
       ∨ ∃ s0 s2 : state Example.world,
           Example.validates_then_finishes steps s0 = (Ret (Finish output), s2)).
Proof.
  destruct (agent_loop_reaches_DONE Example.flat_distance (λ _, "")
              (get_retriever Example.site_indexer) Example.validates_then_finishes
              Example.site_state)
    as (Hbudget & output & steps & s' & Hrun & Hlen & Hend).
  - change (max_iterations
              (agent_executor (W := Example.world) Example.flat_distance (λ _, "")
                 (get_retriever Example.site_indexer)))
      with (S (S (Z.to_nat 14998))).
    split.
    + eexists _, _. split; [reflexivity|].
      intros a t Hact Htool. injection Hact as <-.
      vm_compute in Htool. injection Htool as <-.
      eexists _, _. vm_compute. reflexivity.
    + intros new_steps s1 Hturn. vm_compute in Hturn.
      injection Hturn as <- <-. split.
      * eexists _, _. split; [reflexivity|]. intros a t Hact. discriminate Hact.
      * intros new_steps s2 Hturn. vm_compute in Hturn. discriminate Hturn.
  - exists output, steps, s'. split; [exact Hrun|].
    split; [lia|].
    destruct Hend as [[Hout Heq]|Hfin]; [left; split; [done | lia] | by right].
Defined.

(** Witness of C10: the example environment without SCHEMA_JSON_PATH. *)
Lemma main_raises_TypeError_without_schema_path_witness :
  fst (main Example.whole_text Example.flat_distance (λ _, Example.babbling)
         (λ _ _ _, "") (λ _, "")
         (Example.boot [("PROJECT_PATH", "/home/dev/site"); ("GEMINI_API_KEY", "key")]
            Example.site))
  = Raise (Exc TypeError "expected str, bytes or os.PathLike object, not NoneType").
Proof.
  rewrite (main_raises_TypeError_without_schema_path Example.whole_text
             Example.flat_distance (λ _, Example.babbling) (λ _ _ _, "") (λ _, "")
             (Example.boot [("PROJECT_PATH", "/home/dev/site"); ("GEMINI_API_KEY", "key")]
                Example.site)
             "/home/dev/site" "key"); [reflexivity | reflexivity | discriminate
                                      | reflexivity | discriminate | reflexivity].
Defined.

(** C2, counterexample: the policy asks run_shell_command for a command that
    never exits; the tool call does not return and the run of the loop never
    reaches DONE. *)
Lemma agent_loop_blocked_by_hanging_tool :
  fst (Example.starts_dev_server [] Example.site_state)
  = Ret (Act {| tool := "run_shell_command"; action_input := InStr "npm run dev";
                log := "" |})
  ∧ fst (invoke Example.starts_dev_server
           (agent_executor Example.flat_distance (λ _, "")
              (get_retriever Example.site_indexer))
           Example.site_state)
    = Hang.
Proof. split; [reflexivity|]. vm_compute. reflexivity. Qed.

(** * Further properties of the agent scripts *)

(** ** The tools and the project root *)

Section ToolRootFacts.
Context {W : Type} `{OS W}.

Ltac tool_unfold :=
  unfold read_file, write_file, list_directory, run_shell_command,
    subprocess_run, bind, getenv, try_except, lift_pure, syscall, ret, raise;
  simpl.

(** X1: without PROJECT_PATH no tool reaches the operating system: the file
    tools return the text of the TypeError of the join, run_shell_command
    its own message, and the state is unchanged. *)
Theorem tools_without_project_path (p content command : string) (s : state W) :
  environ s !! "PROJECT_PATH" = None →
  read_file p s
  = (Ret ("Error reading file " +:+ p
          +:+ ": expected str, bytes or os.PathLike object, not NoneType"), s)
  ∧ write_file p content s
    = (Ret ("Error writing to file " +:+ p
            +:+ ": expected str, bytes or os.PathLike object, not NoneType"), s)
  ∧ list_directory p s
    = (Ret ("Error listing directory " +:+ p
            +:+ ": expected str, bytes or os.PathLike object, not NoneType"), s)
  ∧ run_shell_command command s
    = (Ret "Error: PROJECT_PATH is not set in the .env file.", s).
Proof. intros Henv. repeat split; tool_unfold; rewrite Henv; reflexivity. Qed.

(** X2: an empty PROJECT_PATH is refused by run_shell_command, which starts
    no process, but not by read_file, which then opens the path as it was
    given. *)
Theorem empty_project_path_splits_the_tools (p command : string) (s : state W) :
  environ s !! "PROJECT_PATH" = Some "" →
  run_shell_command command s
  = (Ret "Error: PROJECT_PATH is not set in the .env file.", s)
  ∧ read_file p s =
    (let '(r, w) := os_read_text p (os s) in
     (Ret (match r with
           | inl text => text
           | inr e => "Error reading file " +:+ p +:+ ": " +:+ str e
           end), set_os s w)).
Proof.
  intros Henv. split; tool_unfold; rewrite Henv; simpl; [reflexivity|].
  unfold set_os.
  destruct (String.prefix "/" p); simpl; try change ("" +:+ p) with p;
    destruct (os_read_text p (os s)) as [[c|e] w]; done.
Qed.

(** X3: write_file and read_file resolve a path in the same way: when the
    directories can be made, the file can be written and the system gives
    back what was written, read_file returns the content that write_file
    stored under the same argument. *)
Theorem read_file_after_write_file (root p abs content : string)
    (s : state W) (w1 w2 w3 : W) :
  environ s !! "PROJECT_PATH" = Some root →
  posixpath.join (Some root) p = inl abs →
  os_makedirs (posixpath.dirname abs) (os s) = (inl tt, w1) →
  os_write_text abs content w1 = (inl tt, w2) →
  os_read_text abs w2 = (inl content, w3) →
  ∃ s1,
    write_file p content s = (Ret ("Successfully wrote to " +:+ abs +:+ "."), s1)
    ∧ fst (read_file p s1) = Ret content.
Proof.
  intros Henv Hjoin Hmk Hwr Hrd.
  eexists. split.
  - tool_unfold. rewrite Henv, Hjoin. simpl. rewrite Hmk. simpl. rewrite Hwr. simpl.
    reflexivity.
  - tool_unfold. rewrite Henv, Hjoin. simpl. rewrite Hrd. reflexivity.
Qed.

End ToolRootFacts.

(** Witness of X1: the example system without environment. *)
Lemma tools_without_project_path_witness :
  fst (read_file "src/app/page.tsx" (Example.boot [] Example.site))
  = Ret "Error reading file src/app/page.tsx: expected str, bytes or os.PathLike object, not NoneType".
Proof.
  rewrite (proj1 (tools_without_project_path "src/app/page.tsx" "" ""
                    (Example.boot [] Example.site) eq_refl)).
  reflexivity.
Defined.

(** Witness of X2. *)
Lemma empty_project_path_splits_the_tools_witness :
  fst (run_shell_command "npx tsc --noEmit"
         (Example.boot [("PROJECT_PATH", "")] Example.site))
  = Ret "Error: PROJECT_PATH is not set in the .env file.".
Proof.
  rewrite (proj1 (empty_project_path_splits_the_tools "x" "npx tsc --noEmit"
                    (Example.boot [("PROJECT_PATH", "")] Example.site) eq_refl)).
  reflexivity.
Defined.

(** Witness of X3: a new file below the project root. *)
Lemma read_file_after_write_file_witness :
  ∃ s1,
    write_file "src/new.ts" "export {};" Example.site_state
    = (Ret "Successfully wrote to /home/dev/site/src/new.ts.", s1)
    ∧ fst (read_file "src/new.ts" s1) = Ret "export {};".
Proof.
  eapply (read_file_after_write_file "/home/dev/site" "src/new.ts"
            "/home/dev/site/src/new.ts" "export {};" Example.site_state);
    reflexivity.
Defined.

(** ** What the index holds and what the retriever returns *)

Section IndexContentFacts.
Context {W : Type} `{OS W}.
Variable split_text : string → list string.
Variable embedding_distance : string → string → Z.
Local Open Scope nat_scope.
Local Open Scope list_scope.

Lemma load_items_sources (root : pathlib.Path) (items : list (list string))
    (w w' : W) (docs : list Document) :
  load_items root items w = (docs, w') →
  ∀ d, d ∈ docs →
    ∃ rel, rel ∈ items ∧ is_visible rel = true
           ∧ source d = pathlib.to_string (pathlib.joinpath root rel).
Proof.
  revert w w' docs.
  induction items as [|rel items IH]; intros w w' docs Hload d Hd.
  - simpl in Hload. injection Hload as <- <-. by apply elem_of_nil in Hd.
  - simpl in Hload.
    destruct (is_visible rel) eqn:Hvis.
    + destruct (os_read_text _ w) as [[content|e] w1].
      * destruct (load_items root items w1) as [rest w2] eqn:Hrest.
        injection Hload as <- <-.
        apply elem_of_cons in Hd as [->|Hd].
        -- exists rel. split; [left|]. by split.
        -- destruct (IH _ _ _ Hrest d Hd) as (rel' & Hin & Hv & Hs).
           exists rel'. split; [by right|]. by split.
      * destruct (load_items root items w1) as [rest w2] eqn:Hrest.
        injection Hload as <- <-. simpl in Hd.
        destruct (IH _ _ _ Hrest d Hd) as (rel' & Hin & Hv & Hs).
        exists rel'. split; [by right|]. by split.
    + destruct (load_items root items w) as [rest w2] eqn:Hrest.
      injection Hload as <- <-. simpl in Hd.
      destruct (IH _ _ _ Hrest d Hd) as (rel' & Hin & Hv & Hs).
      exists rel'. split; [by right|]. by split.
Qed.

(** X4: every document that the loader returns is a regular file of the
    tree under the root which the pattern selects and none of whose names,
    directories included, starts with a dot; its source is the root joined
    with the relative path. *)
Theorem scan_loads_only_selected_visible_files (path glob : string)
    (w w' : W) (docs : list Document) :
  DirectoryLoader_scan path glob w = (inl docs, w') →
  ∃ entries,
    os_tree path w = inl entries
    ∧ ∀ d, d ∈ docs →
        ∃ rel, (rel, true) ∈ entries
               ∧ pathlib.glob_match glob rel = true
               ∧ is_visible rel = true
               ∧ source d
                 = pathlib.to_string (pathlib.joinpath (pathlib.of_string path) rel).
Proof.
  unfold DirectoryLoader_scan. intros Hscan.
  destruct (os_tree path w) as [entries|e]; [|discriminate].
  exists entries. split; [done|]. intros d Hd.
  destruct (load_items _ _ w) as [docs' w1] eqn:Hload.
  injection Hscan as <- <-.
  destruct (load_items_sources _ _ _ _ _ Hload d Hd) as (rel & Hin & Hvis & Hsrc).
  exists rel. apply list_elem_of_fmap in Hin as ([rel' is_file] & -> & Hin).
  apply list_elem_of_In, filter_In in Hin as [Hin Hsel]. simpl in *.
  apply andb_true_iff in Hsel as [Hglob ->].
  split; [by apply list_elem_of_In|]. done.
Qed.

(** X5: when the scan leaves a document to index, index_project does not
    get as far as the splitter: building it for the language typescript is
    a ValueError, which leaves index_project after the indexing line was
    printed and before anything is split, printed or stored. *)
Theorem index_project_raises_when_documents_are_found (self : CodeIndexer)
    (s : state W) (docs : list Document) (w1 : W) :
  DirectoryLoader_scan (pathlib.to_string (project_path self)) "**/*.{ts,tsx}" (os s)
  = (inl docs, w1) →
  visible_documents docs ≠ [] →
  ∃ msg,
    index_project split_text self s
    = (Raise (Exc ValueError msg),
       {| environ := environ s; os := w1;
          stdout := stdout s ++ [ "🔍 Indexing project files from: "
                                  +:+ pathlib.to_string (project_path self) +:+ "..." ];
          chroma := chroma s |}).
Proof.
  intros Hscan Hdocs. rewrite (index_project_spec split_text self s docs w1 Hscan).
  destruct (visible_documents docs) as [|doc rest]; [done|].
  eexists. reflexivity.
Qed.

Lemma insert_by_distance_perm (query : string) (d : Document) (l : list Document) :
  insert_by_distance embedding_distance query d l ≡ₚ d :: l.
Proof.
  induction l as [|x l IH]; simpl; [done|].
  destruct (_ <? _)%Z; [done|]. rewrite IH. apply Permutation_swap.
Qed.

Lemma sorted_by_distance_perm (query : string) (docs : list Document) :
  foldr (insert_by_distance embedding_distance query) [] docs ≡ₚ docs.
Proof.
  induction docs as [|d docs IH]; simpl; [done|].
  by rewrite insert_by_distance_perm, IH.
Qed.

(** X6: a query of the retriever of main returns at most five documents,
    all of them taken from the collection of the store, none more often
    than the collection holds it, and leaves the state as it is. *)
Theorem retriever_returns_at_most_five_stored_chunks (self : CodeIndexer)
    (query : string) (s : state W) :
  ∃ docs,
    get_relevant_documents embedding_distance (get_retriever self) query s
    = (Ret docs, s)
    ∧ length docs ≤ 5
    ∧ docs ⊆+ collection s (vector_store self).
Proof.
  eexists. split; [reflexivity|]. simpl. split.
  - unfold similarity_search. rewrite length_take. lia.
  - unfold similarity_search.
    rewrite <- (sorted_by_distance_perm query (collection s (vector_store self))) at 2.
    apply sublist_submseteq, sublist_take.
Qed.

End IndexContentFacts.

(** Witness of X4: the example project with a file that the pattern
    selects. *)
Lemma scan_loads_only_selected_visible_files_witness :
  ∃ entries,
    os_tree "/home/dev/site" Example.legacy_site = inl entries
    ∧ ∀ d,
        d ∈ [ {| page_content := "export const old = 0;";
                 source := "/home/dev/site/legacy.{ts,tsx}" |} ] →
        ∃ rel, (rel, true) ∈ entries
               ∧ pathlib.glob_match "**/*.{ts,tsx}" rel = true
               ∧ is_visible rel = true
               ∧ source d
                 = pathlib.to_string
                     (pathlib.joinpath (pathlib.of_string "/home/dev/site") rel).
Proof.
  apply (scan_loads_only_selected_visible_files "/home/dev/site" "**/*.{ts,tsx}"
           Example.legacy_site Example.legacy_site).
  vm_compute. reflexivity.
Defined.

(** Witness of X5: the scan finds the one file whose name ends in the
    text of the pattern; the store holds an older chunk and keeps it. *)
Lemma index_project_raises_when_documents_are_found_witness :
  ∃ msg,
    index_project Example.whole_text Example.site_indexer
      (Example.stale_store Example.legacy_site)
    = (Raise (Exc ValueError msg),
       {| environ := environ (Example.stale_store Example.legacy_site);
          os := Example.legacy_site;
          stdout := [ "🔍 Indexing project files from: /home/dev/site..." ];
          chroma := {[ "/home/dev/.agent_vector_store" := [Example.old_chunk] ]} |}).
Proof.
  apply (index_project_raises_when_documents_are_found Example.whole_text
           Example.site_indexer (Example.stale_store Example.legacy_site)
           [ {| page_content := "export const old = 0;";
                source := "/home/dev/site/legacy.{ts,tsx}" |} ]
           Example.legacy_site).
  - vm_compute. reflexivity.
  - vm_compute. discriminate.
Defined.

(** ** main after its guard *)

Section MainPhaseFacts.
Context {W : Type} `{OS W}.
Variable split_text : string → list string.
Variable embedding_distance : string → string → Z.
Variable llm_plan : string → list AgentStep → M W plan_result.
Variable initial_input : string → string → string → string.
Variable show_documents : list Document → string.
Local Open Scope list_scope.

Local Abbreviation the_main :=
  (main split_text embedding_distance llm_plan initial_input show_documents).
Local Abbreviation the_agent_phase :=
  (agent_phase embedding_distance llm_plan initial_input show_documents).

(** With the three variables set, main is the start-up followed by the
    try statement. *)
Lemma main_after_guard (s : state W) (root key schema : string) :
  environ s !! "PROJECT_PATH" = Some root →
  root ≠ "" →
  environ s !! "GEMINI_API_KEY" = Some key →
  key ≠ "" →
  environ s !! "SCHEMA_JSON_PATH" = Some schema →
  the_main s
  = bind (startup split_text root)
         (the_agent_phase (pathlib.of_string root) (pathlib.of_string schema)) s.
Proof.
  intros Hroot Hroot_ne Hkey Hkey_ne Hschema.
  unfold main, startup, agent_phase.
  unfold bind at 1 2 3. unfold getenv at 1 2 3.
  rewrite Hroot, Hkey, Hschema. simpl.
  assert (String.eqb root "" = false) as -> by by apply String.eqb_neq.
  assert (String.eqb key "" = false) as -> by by apply String.eqb_neq.
  simpl. unfold bind, lift_pure, print, CodeIndexer_init, Chroma_open, ret. simpl.
  destruct (index_project split_text _ _) as [[ix|e|] s2]; reflexivity.
Qed.

Lemma agent_phase_never_raises (project_path schema_path : pathlib.Path)
    (indexer : CodeIndexer) (s : state W) :
  fst (the_agent_phase project_path schema_path indexer s) = Ret tt
  ∨ fst (the_agent_phase project_path schema_path indexer s) = Hang.
Proof.
  unfold agent_phase, try_except2.
  match goal with |- context [match ?body s with _ => _ end] =>
    destruct (body s) as [[[]|e|] s2] end.
  - by left.
  - destruct (is_FileNotFoundError e); by left.
  - by right.
Qed.

(** X7: once the index is built, no exception leaves main: whatever the
    policy, the tools and the operating system do in the try statement,
    main returns or waits for a call that does not return. *)
Theorem main_contains_every_exception_of_the_agent (s s2 : state W)
    (root key schema : string) (indexer : CodeIndexer) :
  environ s !! "PROJECT_PATH" = Some root →
  root ≠ "" →
  environ s !! "GEMINI_API_KEY" = Some key →
  key ≠ "" →
  environ s !! "SCHEMA_JSON_PATH" = Some schema →
  startup split_text root s = (Ret indexer, s2) →
  fst (the_main s) = Ret tt ∨ fst (the_main s) = Hang.
Proof.
  intros Hroot Hroot_ne Hkey Hkey_ne Hschema Hstart.
  rewrite (main_after_guard s root key schema) by done.
  unfold bind. rewrite Hstart. apply agent_phase_never_raises.
Qed.

(** X8: when the schema file does not exist, main reports it after the
    index is built and returns: the two lines of the fatal message are the
    last ones printed, and the policy is not asked. *)
Theorem main_reports_missing_schema_file (s s2 : state W) (w3 : W)
    (root key schema msg : string) (indexer : CodeIndexer) :
  environ s !! "PROJECT_PATH" = Some root →
  root ≠ "" →
  environ s !! "GEMINI_API_KEY" = Some key →
  key ≠ "" →
  environ s !! "SCHEMA_JSON_PATH" = Some schema →
  startup split_text root s = (Ret indexer, s2) →
  os_read_text (pathlib.to_string (pathlib.of_string schema)) (os s2)
  = (inr (Exc FileNotFoundError msg), w3) →
  the_main s
  = (Ret tt,
     {| environ := environ s2; os := w3;
        stdout := (stdout s2
          ++ ["❌ FATAL ERROR: A required file was not found. Please check your paths in the .env file and ensure pages-components-list.txt exists."])
          ++ ["Details: " +:+ msg];
        chroma := chroma s2 |}).
Proof.
  intros Hroot Hroot_ne Hkey Hkey_ne Hschema Hstart Hread.
  rewrite (main_after_guard s root key schema) by done.
  unfold bind at 1. rewrite Hstart.
  unfold agent_phase, try_except2, bind, syscall. rewrite Hread. reflexivity.
Qed.

(** X9: the index is built outside the try statement: when the directory
    of PROJECT_PATH cannot be scanned, the exception of the loader leaves
    main, after the banner and the indexing line were printed. *)
Theorem main_raises_when_project_cannot_be_scanned (s : state W)
    (root key schema : string) (e : exn) :
  environ s !! "PROJECT_PATH" = Some root →
  root ≠ "" →
  environ s !! "GEMINI_API_KEY" = Some key →
  key ≠ "" →
  environ s !! "SCHEMA_JSON_PATH" = Some schema →
  os_tree (pathlib.to_string (pathlib.of_string root)) (os s) = inr e →
  fst (the_main s) = Raise e
  ∧ stdout (snd (the_main s))
    = (stdout s ++ ["--- 🚀 Starting AI Refactoring Agent ---"])
      ++ ["🔍 Indexing project files from: "
          +:+ pathlib.to_string (pathlib.of_string root) +:+ "..."].
Proof.
  intros Hroot Hroot_ne Hkey Hkey_ne Hschema Htree.
  rewrite (main_after_guard s root key schema) by done.
  unfold bind at 1.
  unfold startup, CodeIndexer_init, index_project, DirectoryLoader_load,
    DirectoryLoader_scan, Chroma_open, bind, print, syscall, ret. simpl.
  rewrite Htree. simpl. done.
Qed.

(** X10: an action of the policy that names none of the six tools of main
    runs nothing: the turn answers with the observation that lists the
    tools, in the state the policy left. *)
Theorem unregistered_action_is_answered_not_executed (retriever : Retriever)
    (plan : list AgentStep → M W plan_result)
    (steps : list AgentStep) (s s1 : state W) (a : AgentAction) :
  plan steps s = (Ret (Act a), s1) →
  tool a ∉ ["read_file"; "write_file"; "list_directory"; "run_shell_command";
            "validate_typescript_code"; "CodebaseRetriever"] →
  take_next_step plan (agent_executor embedding_distance show_documents retriever)
    steps s
  = (Ret (inr [ {| action := a;
                   observation := tool a +:+ " is not a valid tool, try one of [read_file, write_file, list_directory, run_shell_command, validate_typescript_code, CodebaseRetriever]." |} ]),
     s1).
Proof.
  intros Hplan Hname.
  repeat (apply not_elem_of_cons in Hname as [? Hname]).
  unfold take_next_step, bind. rewrite Hplan.
  unfold lookup_tool, agent_executor, agent_tools. cbn -[String.eqb String.app].
  repeat match goal with
         | Hne : tool a ≠ ?n |- context [String.eqb ?n (tool a)] =>
             assert (String.eqb n (tool a) = false) as ->
               by (apply String.eqb_neq; congruence)
         end.
  reflexivity.
Qed.

End MainPhaseFacts.

(** Witness of X7: the example project; its schema file does not exist, so
    the try statement is left by an exception, which main contains. *)
Lemma main_contains_every_exception_of_the_agent_witness :
  fst (main Example.whole_text Example.flat_distance (λ _, Example.babbling)
         (λ _ _ _, "") (λ _, "") Example.site_state) = Ret tt
  ∨ fst (main Example.whole_text Example.flat_distance (λ _, Example.babbling)
           (λ _ _ _, "") (λ _, "") Example.site_state) = Hang.
Proof.
  eapply (main_contains_every_exception_of_the_agent Example.whole_text
            Example.flat_distance (λ _, Example.babbling) (λ _ _ _, "") (λ _, "")
            Example.site_state _ "/home/dev/site" "key" "/home/dev/schema.json");
    [reflexivity | discriminate | reflexivity | discriminate | reflexivity
    | vm_compute; reflexivity].
Defined.

(** Witness of X8: the example project, where /home/dev/schema.json does
    not exist. *)
Lemma main_reports_missing_schema_file_witness :
  fst (main Example.whole_text Example.flat_distance (λ _, Example.babbling)
         (λ _ _ _, "") (λ _, "") Example.site_state) = Ret tt
  ∧ last (stdout (snd (main Example.whole_text Example.flat_distance
                         (λ _, Example.babbling) (λ _ _ _, "") (λ _, "")
                         Example.site_state)))
    = Some "Details: [Errno 2] No such file or directory: '/home/dev/schema.json'".
Proof.
  erewrite (main_reports_missing_schema_file Example.whole_text
              Example.flat_distance (λ _, Example.babbling) (λ _ _ _, "") (λ _, "")
              Example.site_state _ _ "/home/dev/site" "key" "/home/dev/schema.json");
    [ split; [reflexivity | simpl; by rewrite last_snoc]
    | reflexivity | discriminate | reflexivity | discriminate | reflexivity
    | vm_compute; reflexivity
    | vm_compute; reflexivity ].
Defined.

(** Witness of X9: PROJECT_PATH names a directory that does not exist. *)
Lemma main_raises_when_project_cannot_be_scanned_witness :
  fst (main Example.whole_text Example.flat_distance (λ _, Example.babbling)
         (λ _ _ _, "") (λ _, "")
         (Example.boot [("PROJECT_PATH", "/nowhere"); ("GEMINI_API_KEY", "key");
                        ("SCHEMA_JSON_PATH", "/home/dev/schema.json")]
            Example.site))
  = Raise (Exc FileNotFoundError "Directory not found: '/nowhere'").
Proof.
  apply (main_raises_when_project_cannot_be_scanned Example.whole_text
           Example.flat_distance (λ _, Example.babbling) (λ _ _ _, "") (λ _, "")
           _ "/nowhere" "key" "/home/dev/schema.json");
    [reflexivity | discriminate | reflexivity | discriminate | reflexivity
    | reflexivity].
Defined.

(** Witness of X10: the action name that the prompt of try-04-testing.py
    (lines 211-217) gives for the final answer is not the name of a tool. *)
Lemma unregistered_action_is_answered_not_executed_witness :
  take_next_step
    (λ _, ret (Act {| tool := "final_answer"; action_input := InStr "done";
                      log := "" |}))
    (agent_executor Example.flat_distance (λ _, "")
       (get_retriever Example.site_indexer))
    [] Example.site_state
  = (Ret (inr [ {| action := {| tool := "final_answer";
                                action_input := InStr "done"; log := "" |};
                   observation := "final_answer is not a valid tool, try one of [read_file, write_file, list_directory, run_shell_command, validate_typescript_code, CodebaseRetriever]." |} ]),
     Example.site_state).
Proof.
  apply (unregistered_action_is_answered_not_executed Example.flat_distance
           (λ _, "") (get_retriever Example.site_indexer)
           (λ _, ret (Act {| tool := "final_answer"; action_input := InStr "done";
                             log := "" |}))
           [] Example.site_state Example.site_state).
  - reflexivity.
  - cbn. intros Hin. repeat (apply elem_of_cons in Hin as [Hin|Hin]; [discriminate|]).
    by apply elem_of_nil in Hin.
Defined.

(** ** Python strings *)

Section PystrFacts.
Local Open Scope nat_scope.
Local Open Scope list_scope.

Lemma chars_app (a b : string) :
  list_ascii_of_string (a +:+ b) = list_ascii_of_string a ++ list_ascii_of_string b.
Proof.
  induction a as [|c a IH]; [done|].
  change (String c a +:+ b) with (String c (a +:+ b)). simpl. by rewrite IH.
Qed.

Lemma string_app_chars (a b : list ascii) :
  string_of_list_ascii (a ++ b) = string_of_list_ascii a +:+ string_of_list_ascii b.
Proof.
  induction a as [|c a IH]; [done|].
  simpl. rewrite IH. reflexivity.
Qed.

Lemma append_cons (c : ascii) (x y : string) : String c x +:+ y = String c (x +:+ y).
Proof. reflexivity. Qed.

Lemma append_assoc (x y z : string) : (x +:+ y) +:+ z = x +:+ y +:+ z.
Proof. induction x as [|c x IH]; [done|]. by rewrite !append_cons, IH. Qed.

Lemma append_nil_r (x : string) : x +:+ "" = x.
Proof. induction x as [|c x IH]; [done|]. by rewrite append_cons, IH. Qed.

Lemma join_lines_cons (x : string) (l : list string) :
  l ≠ [] → join_lines (x :: l) = x +:+ nl +:+ join_lines l.
Proof. by destruct l. Qed.

Lemma split_chars_not_nil (is_sep : ascii → bool) (cs cur : list ascii) :
  pystr.split_chars is_sep cs cur ≠ [].
Proof.
  revert cur. induction cs as [|c cs IH]; intros cur; simpl; [done|].
  destruct (is_sep c); [done | apply IH].
Qed.

Lemma join_split_chars (cs cur : list ascii) :
  join_lines (map string_of_list_ascii
                (pystr.split_chars (Ascii.eqb "010"%char) cs cur))
  = string_of_list_ascii (rev cur ++ cs).
Proof.
  revert cur. induction cs as [|c cs IH]; intros cur; cbn [pystr.split_chars].
  - simpl. by rewrite app_nil_r.
  - destruct (Ascii.eqb_spec "010"%char c) as [<-|Hc].
    + cbn [map]. rewrite join_lines_cons.
      * rewrite (IH []). cbn [rev app]. by rewrite string_app_chars.
      * intros Hnil. apply map_eq_nil in Hnil. by apply split_chars_not_nil in Hnil.
    + rewrite IH. cbn [rev]. by rewrite <- app_assoc.
Qed.

(** Joining the lines of a text gives the text back. *)
Lemma join_split (s : string) : join_lines (pystr.split "010"%char s) = s.
Proof.
  unfold pystr.split. rewrite join_split_chars. simpl.
  apply string_of_list_ascii_of_string.
Qed.

Lemma split_chars_no_sep (is_sep : ascii → bool) (a cur : list ascii) :
  Forall (λ c, is_sep c = false) a →
  pystr.split_chars is_sep a cur = [rev cur ++ a].
Proof.
  intros Ha. revert cur. induction Ha as [|c a Hc Ha IH]; intros cur; simpl.
  - by rewrite app_nil_r.
  - rewrite Hc, IH. simpl. by rewrite <- app_assoc.
Qed.

Lemma split_chars_first (is_sep : ascii → bool) (a b cur : list ascii) (sep : ascii) :
  Forall (λ c, is_sep c = false) a →
  is_sep sep = true →
  pystr.split_chars is_sep (a ++ sep :: b) cur
  = (rev cur ++ a) :: pystr.split_chars is_sep b [].
Proof.
  intros Ha Hsep. revert cur. induction Ha as [|c a Hc Ha IH]; intros cur; simpl.
  - by rewrite Hsep, app_nil_r.
  - rewrite Hc, IH. simpl. by rewrite <- app_assoc.
Qed.

Lemma split_chars_last (is_sep : ascii → bool) (b c cur : list ascii) (sep : ascii) :
  Forall (λ x, is_sep x = false) c →
  is_sep sep = true →
  pystr.split_chars is_sep (b ++ sep :: c) cur
  = pystr.split_chars is_sep b cur ++ [c].
Proof.
  intros Hc Hsep. revert cur. induction b as [|x b IH]; intros cur; simpl.
  - rewrite Hsep. by rewrite (split_chars_no_sep is_sep c [] Hc).
  - destruct (is_sep x); [|apply IH]. simpl. by rewrite IH.
Qed.

Lemma split_chars_app (is_sep : ascii → bool) (a b cur : list ascii) (sep : ascii) :
  is_sep sep = true →
  pystr.split_chars is_sep (a ++ sep :: b) cur
  = pystr.split_chars is_sep a cur ++ pystr.split_chars is_sep b [].
Proof.
  intros Hsep. revert cur. induction a as [|x a IH]; intros cur; simpl.
  - by rewrite Hsep.
  - destruct (is_sep x); [|apply IH]. simpl. by rewrite IH.
Qed.

Ltac byte_tests :=
  repeat match goal with
         | |- context [(?a =? ?b)%N] => destruct (N.eqb_spec a b); try lia
         | |- context [(?a <=? ?b)%N] => destruct (N.leb_spec a b); try lia
         end.

Lemma drop_space_plain (mirror : bool) (c : ascii) (s : list ascii) :
  pystr.plain c → pystr.drop_space mirror (c :: s) = c :: s.
Proof.
  intros [Hascii Hspace]. simpl. rewrite Hspace.
  destruct s as [|c2 [|c3 s3]]; [done| |].
  - destruct mirror; unfold pystr.is_space2; byte_tests; reflexivity.
  - assert ((if mirror then pystr.is_space2 c2 c else pystr.is_space2 c c2) = false)
      as -> by (destruct mirror; unfold pystr.is_space2; byte_tests; reflexivity).
    assert ((if mirror then pystr.is_space3 c3 c2 c else pystr.is_space3 c c2 c3) = false)
      as -> by (destruct mirror; unfold pystr.is_space3; byte_tests; reflexivity).
    reflexivity.
Qed.

(** A text without white space at its ends is its own strip. *)
Lemma strip_chars_id (l : list ascii) :
  (∀ c, head l = Some c → pystr.plain c) →
  (∀ c, last l = Some c → pystr.plain c) →
  pystr.strip_chars l = l.
Proof.
  intros Hhead Hlast. unfold pystr.strip_chars.
  destruct l as [|c l]; [done|].
  rewrite drop_space_plain by by apply Hhead.
  destruct (rev (c :: l)) as [|d r] eqn:Hrev.
  - apply (f_equal (@rev ascii)) in Hrev. rewrite rev_involutive in Hrev. done.
  - rewrite drop_space_plain.
    + rewrite <- Hrev. apply rev_involutive.
    + apply Hlast. apply (f_equal (@rev ascii)) in Hrev. rewrite rev_involutive in Hrev.
      rewrite Hrev. simpl. by rewrite last_snoc.
Qed.

Lemma strip_chars_plain (l : list ascii) :
  Forall pystr.plain l → pystr.strip_chars l = l.
Proof.
  intros Hl. apply strip_chars_id; intros c Hc.
  - destruct l; [done|]. injection Hc as <-. by apply Forall_cons in Hl as [? _].
  - apply last_Some_elem_of in Hc. by eapply Forall_forall in Hl.
Qed.

Lemma drop_space_elem (mirror : bool) (n : nat) (s : list ascii) (c : ascii) :
  length s ≤ n → c ∈ pystr.drop_space mirror s → c ∈ s.
Proof.
  revert s. induction n as [|n IH]; intros s Hlen Hc.
  - destruct s; [done | simpl in Hlen; lia].
  - destruct s as [|c1 s1]; [done|]. simpl in Hc, Hlen.
    destruct (pystr.is_space1 c1).
    { right. apply IH; [lia | done]. }
    destruct s1 as [|c2 s2]; [done|]. simpl in Hlen.
    destruct (if mirror then pystr.is_space2 c2 c1 else pystr.is_space2 c1 c2).
    { right. right. apply IH; [lia | done]. }
    destruct s2 as [|c3 s3]; [done|]. simpl in Hlen.
    destruct (if mirror then pystr.is_space3 c3 c2 c1 else pystr.is_space3 c1 c2 c3);
      [|done].
    right. right. right. apply IH; [lia | done].
Qed.

Lemma elem_of_rev {A} (l : list A) (x : A) : x ∈ rev l ↔ x ∈ l.
Proof. rewrite !list_elem_of_In. symmetry. apply in_rev. Qed.

Lemma strip_chars_elem (s : list ascii) (c : ascii) :
  c ∈ pystr.strip_chars s → c ∈ s.
Proof.
  unfold pystr.strip_chars. intros Hc.
  rewrite elem_of_rev in Hc.
  apply (drop_space_elem true _ _ _ (le_n _)) in Hc.
  rewrite elem_of_rev in Hc.
  by apply (drop_space_elem false _ _ _ (le_n _)) in Hc.
Qed.

Lemma split_chars_elem (is_sep : ascii → bool) (cs cur l : list ascii) (c : ascii) :
  l ∈ pystr.split_chars is_sep cs cur → c ∈ l → c ∈ cur ∨ c ∈ cs.
Proof.
  revert cur. induction cs as [|x cs IH]; intros cur Hl Hc; simpl in Hl.
  - apply list_elem_of_singleton in Hl as ->. left. rewrite elem_of_rev in Hc; done.
  - destruct (is_sep x).
    + apply elem_of_cons in Hl as [->|Hl].
      * left. rewrite elem_of_rev in Hc; done.
      * destruct (IH [] Hl Hc) as [Hnil|Hcs]; [by apply elem_of_nil in Hnil|].
        right. by right.
    + destruct (IH (x :: cur) Hl Hc) as [Hcur|Hcs].
      * apply elem_of_cons in Hcur as [->|Hcur]; [right; left | by left].
      * right. by right.
Qed.

End PystrFacts.

(** ** clean_gemini_response and the lines of list_directory *)

Section LineFacts.
Local Open Scope list_scope.

Lemma plain_not_newline (c : ascii) : pystr.plain c → Ascii.eqb "010"%char c = false.
Proof.
  intros [_ Hspace]. destruct (Ascii.eqb_spec "010"%char c) as [<-|]; [done|done].
Qed.

Lemma plain_backtick : pystr.plain "`"%char.
Proof. split; reflexivity. Qed.

Lemma strip_of_chars (l : list ascii) :
  pystr.strip (string_of_list_ascii l) = string_of_list_ascii (pystr.strip_chars l).
Proof. unfold pystr.strip. by rewrite list_ascii_of_string_of_list_ascii. Qed.

Lemma strip_elem (s : string) (c : ascii) :
  c ∈ list_ascii_of_string (pystr.strip s) → c ∈ list_ascii_of_string s.
Proof.
  unfold pystr.strip. rewrite list_ascii_of_string_of_list_ascii.
  apply strip_chars_elem.
Qed.

Lemma split_elem (sep : ascii) (s l : string) (c : ascii) :
  l ∈ pystr.split sep s → c ∈ list_ascii_of_string l → c ∈ list_ascii_of_string s.
Proof.
  unfold pystr.split. intros Hl Hc.
  apply list_elem_of_fmap in Hl as (l' & -> & Hl').
  rewrite list_ascii_of_string_of_list_ascii in Hc.
  destruct (split_chars_elem _ _ _ _ _ Hl' Hc) as [Hnil|Hs]; [|done].
  by apply elem_of_nil in Hnil.
Qed.

Lemma starts_with_head (c : ascii) (p s : list ascii) :
  pystr.starts_with (c :: p) s = true → c ∈ s.
Proof.
  destruct s as [|d s]; simpl; [done|].
  intros Hm. apply andb_true_iff in Hm as [Hc _].
  apply Ascii.eqb_eq in Hc as ->. left.
Qed.

(** X11: a response that consists of a fenced block, with or without a
    language name after the opening fence, is cleaned to the text between
    the two fence lines, unchanged. *)
Theorem clean_gemini_response_unwraps_fence (lang body : string) :
  Forall pystr.plain (list_ascii_of_string lang) →
  clean_gemini_response ("```" +:+ lang +:+ nl +:+ body +:+ nl +:+ "```") = body.
Proof.
  intros Hlang. unfold clean_gemini_response.
  set (L := list_ascii_of_string lang) in *.
  set (B := list_ascii_of_string body).
  set (F := list_ascii_of_string "```").
  assert (list_ascii_of_string ("```" +:+ lang +:+ nl +:+ body +:+ nl +:+ "```")
          = (F ++ L) ++ "010"%char :: (B ++ "010"%char :: F)) as Hchars.
  { rewrite !chars_app. rewrite <- app_assoc. reflexivity. }
  assert (Forall pystr.plain (F ++ L)) as Hfirst.
  { apply Forall_app. split; [|done]. repeat constructor; apply plain_backtick. }
  assert (pystr.strip ("```" +:+ lang +:+ nl +:+ body +:+ nl +:+ "```")
          = "```" +:+ lang +:+ nl +:+ body +:+ nl +:+ "```") as ->.
  { unfold pystr.strip. rewrite strip_chars_id.
    - apply string_of_list_ascii_of_string.
    - rewrite Hchars. simpl. intros c [= <-]. apply plain_backtick.
    - rewrite Hchars. intros c Hc.
      rewrite last_app_cons, app_comm_cons, last_app_cons in Hc.
      injection Hc as <-. apply plain_backtick. }
  unfold pystr.split. rewrite Hchars.
  rewrite (split_chars_first _ (F ++ L) _ [] "010"%char);
    [| eapply Forall_impl; [exact Hfirst | apply plain_not_newline] | reflexivity].
  rewrite (split_chars_last _ B F [] "010"%char); [| by repeat constructor | reflexivity].
  cbn [map rev app]. unfold drop_opening_fence.
  rewrite strip_of_chars, (strip_chars_plain _ Hfirst).
  assert (pystr.startswith "```" (string_of_list_ascii (F ++ L)) = true) as ->.
  { unfold pystr.startswith. by rewrite list_ascii_of_string_of_list_ascii. }
  cbn [orb]. unfold drop_closing_fence.
  rewrite map_app. cbn [map]. rewrite last_snoc.
  change (String.eqb (pystr.strip (string_of_list_ascii F)) "```") with true.
  cbn iota. rewrite removelast_last.
  apply (join_split body).
Qed.

(** X12: a response without any backtick is returned stripped, and
    otherwise as it is. *)
Theorem clean_gemini_response_without_backtick (text : string) :
  "`"%char ∉ list_ascii_of_string text →
  clean_gemini_response text = pystr.strip text.
Proof.
  intros Hno. unfold clean_gemini_response.
  assert (∀ l, l ∈ pystr.split "010"%char (pystr.strip text) →
               "`"%char ∉ list_ascii_of_string (pystr.strip l)) as Hlines.
  { intros l Hl Hin. apply Hno. apply strip_elem.
    apply (split_elem _ _ _ _ Hl). by apply strip_elem. }
  assert (drop_opening_fence (pystr.split "010"%char (pystr.strip text))
          = pystr.split "010"%char (pystr.strip text)) as ->.
  { unfold drop_opening_fence.
    destruct (pystr.split "010"%char (pystr.strip text)) as [|first rest]; [done|].
    assert ("`"%char ∉ list_ascii_of_string (pystr.strip first)) as Hfirst
      by (apply Hlines; left).
    unfold pystr.startswith.
    destruct (pystr.starts_with (list_ascii_of_string "```") _) eqn:H1.
    { exfalso. apply Hfirst. by apply starts_with_head in H1. }
    destruct (pystr.starts_with (list_ascii_of_string "```typescript") _) eqn:H2.
    { exfalso. apply Hfirst. by apply starts_with_head in H2. }
    reflexivity. }
  assert (drop_closing_fence (pystr.split "010"%char (pystr.strip text))
          = pystr.split "010"%char (pystr.strip text)) as ->.
  { unfold drop_closing_fence.
    destruct (last (pystr.split "010"%char (pystr.strip text))) as [final|] eqn:Hlast;
      [|done].
    destruct (String.eqb_spec (pystr.strip final) "```") as [Heq|]; [|done].
    exfalso. apply (Hlines final); [by apply last_Some_elem_of|].
    rewrite Heq. left. }
  apply join_split.
Qed.

Lemma split_join (files : list string) :
  files ≠ [] →
  Forall (λ n, "010"%char ∉ list_ascii_of_string n) files →
  pystr.split "010"%char (join_lines files) = files.
Proof.
  assert (∀ n, "010"%char ∉ list_ascii_of_string n →
            Forall (λ c, Ascii.eqb "010"%char c = false) (list_ascii_of_string n))
    as Hsep.
  { intros n Hn. apply Forall_forall. intros c Hc.
    destruct (Ascii.eqb_spec "010"%char c) as [<-|]; done. }
  induction files as [|x files IH]; [done|]. intros _ Hall.
  apply Forall_cons in Hall as [Hx Hall].
  destruct files as [|y files].
  - simpl. unfold pystr.split.
    rewrite (split_chars_no_sep _ _ [] (Hsep x Hx)). simpl.
    by rewrite string_of_list_ascii_of_string.
  - rewrite join_lines_cons by done. unfold pystr.split.
    rewrite !chars_app. simpl list_ascii_of_string at 2. cbn [app].
    rewrite (split_chars_first _ _ _ [] "010"%char (Hsep x Hx) eq_refl).
    cbn [map rev app]. rewrite string_of_list_ascii_of_string. f_equal.
    apply IH; done.
Qed.

End LineFacts.

Section ListDirectoryFacts.
Context {W : Type} `{OS W}.

(** X13: the text that list_directory returns for a directory that is not
    empty has one line for each entry, in the order of the listing: its
    lines are the entries, as long as no name holds a newline. *)
Theorem list_directory_has_one_line_per_entry (root p abs : string)
    (files : list string) (s : state W) (w : W) :
  environ s !! "PROJECT_PATH" = Some root →
  posixpath.join (Some root) p = inl abs →
  os_listdir abs (os s) = (inl files, w) →
  files ≠ [] →
  Forall (λ n, "010"%char ∉ list_ascii_of_string n) files →
  ∃ text,
    list_directory p s = (Ret text, set_os s w)
    ∧ pystr.split "010"%char text = files.
Proof.
  intros Henv Hjoin Hlist Hne Hnames.
  exists (join_lines files). split; [|by apply split_join].
  unfold list_directory, bind, getenv, try_except, lift_pure, syscall, ret. simpl.
  rewrite Henv, Hjoin. simpl. rewrite Hlist. reflexivity.
Qed.

End ListDirectoryFacts.

(** Witness of X11: a block of TypeScript. *)
Lemma clean_gemini_response_unwraps_fence_witness :
  clean_gemini_response
    ("```" +:+ "typescript" +:+ nl +:+ "export type A = string;" +:+ nl +:+ "```")
  = "export type A = string;".
Proof.
  apply (clean_gemini_response_unwraps_fence "typescript" "export type A = string;").
  repeat constructor.
Defined.

(** Witness of X12. *)
Lemma clean_gemini_response_without_backtick_witness :
  clean_gemini_response "  export type A = string; " = "export type A = string;".
Proof.
  rewrite (clean_gemini_response_without_backtick "  export type A = string; ").
  - reflexivity.
  - intros Hin. vm_compute in Hin.
    repeat (apply elem_of_cons in Hin as [Hin|Hin]; [discriminate|]).
    by apply elem_of_nil in Hin.
Defined.

(** Witness of X13: the directory src of the example project. *)
Lemma list_directory_has_one_line_per_entry_witness :
  ∃ text,
    list_directory "src" Example.site_state = (Ret text, Example.site_state)
    ∧ pystr.split "010"%char text = ["app"; "lib"].
Proof.
  apply (list_directory_has_one_line_per_entry "/home/dev/site" "src"
           "/home/dev/site/src" ["app"; "lib"] Example.site_state Example.site);
    [reflexivity | reflexivity | reflexivity | discriminate |].
  repeat constructor; intros Hin; vm_compute in Hin;
    repeat (apply elem_of_cons in Hin as [Hin|Hin]; [discriminate|]);
    by apply elem_of_nil in Hin.
Defined.

(** ** src/integration/gemini.py *)

Section GeminiFacts.
Context {W : Type}.
Local Open Scope nat_scope.
Local Open Scope list_scope.

Lemma printed_nil (s : state W) : printed s [] = s.
Proof. destruct s. unfold printed. simpl. by rewrite app_nil_r. Qed.

Lemma printed_printed (s : state W) (l1 l2 : list string) :
  printed (printed s l1) l2 = printed s (l1 ++ l2).
Proof. unfold printed. simpl. by rewrite app_assoc. Qed.

Lemma print_printed (line : string) (s : state W) :
  print line s = (Ret tt, printed s [line]).
Proof. reflexivity. Qed.

Lemma field_flags_from (fields : list Field) (a b : bool) :
  foldl (λ (flags : bool * bool) field,
           let has_url_field :=
             if (bool_decide (field_uid field = Some "url")
                 && bool_decide (field_data_type field = Some "text"))%bool
             then true else fst flags in
           let has_modular_blocks :=
             if bool_decide (field_data_type field = Some "modular_blocks")
             then true else snd flags in
           (has_url_field, has_modular_blocks))
        (a, b) fields
  = ((a || existsb (λ f, bool_decide (field_uid f = Some "url")
                         && bool_decide (field_data_type f = Some "text")) fields)%bool,
     (b || existsb (λ f, bool_decide (field_data_type f = Some "modular_blocks"))
             fields)%bool).
Proof.
  revert a b. induction fields as [|f fields IH]; intros a b; simpl.
  - by rewrite !orb_false_r.
  - rewrite IH.
    destruct (bool_decide (field_uid f = Some "url")
              && bool_decide (field_data_type f = Some "text"))%bool,
             (bool_decide (field_data_type f = Some "modular_blocks")), a, b; reflexivity.
Qed.

Lemma field_flags_page_type (ct : ContentType) :
  field_flags (default [] (ct_schema ct)) = (true, true) ↔ is_page_type ct.
Proof.
  unfold field_flags, is_page_type. rewrite field_flags_from. simpl. split.
  - intros [= H1 H2].
    apply existsb_exists in H1 as (f1 & Hf1 & Hp1).
    apply existsb_exists in H2 as (f2 & Hf2 & Hp2).
    apply andb_true_iff in Hp1 as [Hu Ht].
    apply bool_decide_eq_true in Hu, Ht, Hp2.
    exists f1, f2. by rewrite !list_elem_of_In.
  - intros (f1 & f2 & Hf1 & Hf2 & Hu & Ht & Hm).
    rewrite list_elem_of_In in Hf1, Hf2. f_equal.
    + apply existsb_exists. exists f1. split; [done|].
      apply andb_true_iff. by split; apply bool_decide_eq_true.
    + apply existsb_exists. exists f2. split; [done|]. by apply bool_decide_eq_true.
Qed.

Lemma find_loop_spec (schema_data : list ContentType) (s : state W) :
  (∃ before ct after,
     schema_data = before ++ ct :: after
     ∧ Forall (λ c, ¬ is_page_type c) before
     ∧ is_page_type ct
     ∧ find_page_content_type_uid_loop schema_data s
       = (Ret (ct_uid ct),
          printed s ["     - Found page content type: '" +:+ ct_uid ct +:+ "'"]))
  ∨ (Forall (λ c, ¬ is_page_type c) schema_data
     ∧ find_page_content_type_uid_loop schema_data s
       = (Ret "page",
          printed s ["     - WARNING: Could not auto-detect page content type. Falling back to 'page'."])).
Proof.
  induction schema_data as [|ct rest IH].
  - right. split; [constructor | reflexivity].
  - simpl.
    destruct (field_flags (default [] (ct_schema ct))) as [b1 b2] eqn:Hflags.
    destruct (b1 && b2)%bool eqn:Hboth.
    + left. exists [], ct, rest. split; [done|]. split; [constructor|].
      apply andb_true_iff in Hboth as [-> ->].
      split; [by apply field_flags_page_type | reflexivity].
    + assert (¬ is_page_type ct) as Hnot.
      { intros Hct. apply field_flags_page_type in Hct.
        rewrite Hct in Hflags. injection Hflags as <- <-. done. }
      destruct IH as [(before & c & after & -> & Hbefore & Hc & Hrun)|[Hall Hrun]].
      * left. exists (ct :: before), c, after.
        split; [done|]. split; [by constructor|]. by split.
      * right. split; [by constructor | done].
Qed.

(** X14: find_page_content_type_uid returns the uid of the first content
    type of the schema, in the order of the export, that has both a text
    field with the uid url and a field of modular blocks, whatever the
    order of its fields; when no content type has both it prints the warning
    and returns the name page. *)
Theorem find_page_content_type_uid_returns_first_page_type
    (schema_data : list ContentType) (s : state W) :
  (∃ before ct after,
     schema_data = before ++ ct :: after
     ∧ Forall (λ c, ¬ is_page_type c) before
     ∧ is_page_type ct
     ∧ find_page_content_type_uid schema_data s
       = (Ret (ct_uid ct),
          printed s [ "   - Analyzing schema to find page content type UID...";
                      "     - Found page content type: '" +:+ ct_uid ct +:+ "'" ]))
  ∨ (Forall (λ c, ¬ is_page_type c) schema_data
     ∧ find_page_content_type_uid schema_data s
       = (Ret "page",
          printed s [ "   - Analyzing schema to find page content type UID...";
                      "     - WARNING: Could not auto-detect page content type. Falling back to 'page'." ])).
Proof.
  unfold find_page_content_type_uid, bind. rewrite print_printed.
  destruct (find_loop_spec schema_data
              (printed s ["   - Analyzing schema to find page content type UID..."]))
    as [(before & ct & after & Hsplit & Hbefore & Hct & Hrun)|[Hall Hrun]].
  - left. exists before, ct, after. rewrite Hrun, printed_printed. done.
  - right. rewrite Hrun, printed_printed. done.
Qed.

Lemma starts_with_app (n post : list ascii) : pystr.starts_with n (n ++ post) = true.
Proof.
  induction n as [|c n IH]; simpl; [done|].
  by rewrite Ascii.eqb_refl, IH.
Qed.

Lemma starts_with_inv (n h : list ascii) :
  pystr.starts_with n h = true → ∃ post, h = n ++ post.
Proof.
  revert h. induction n as [|c n IH]; intros h Hm; simpl in Hm.
  - by exists h.
  - destruct h as [|d h]; [done|].
    apply andb_true_iff in Hm as [Hc Hm]. apply Ascii.eqb_eq in Hc as ->.
    destruct (IH h Hm) as [post ->]. by exists post.
Qed.

Lemma contains_chars_intro (n pre post : list ascii) :
  pystr.contains_chars n (pre ++ n ++ post) = true.
Proof.
  induction pre as [|c pre IH].
  - simpl app. destruct (n ++ post) eqn:Heq; simpl.
    + destruct n; [done | discriminate].
    + rewrite <- Heq, starts_with_app. done.
  - simpl. rewrite IH. apply orb_true_r.
Qed.

Lemma contains_chars_inv (n h : list ascii) :
  pystr.contains_chars n h = true → ∃ pre post, h = pre ++ n ++ post.
Proof.
  induction h as [|c h IH]; simpl; intros Hc.
  - rewrite orb_false_r in Hc. apply starts_with_inv in Hc as [post ->].
    by exists [], post.
  - apply orb_true_iff in Hc as [Hc|Hc].
    + apply starts_with_inv in Hc as [post ->]. by exists [], post.
    + destruct (IH Hc) as (pre & post & ->). by exists (c :: pre), post.
Qed.

(** A text that holds a needle holds every part of the needle. *)
Lemma contains_part (a b c code : string) :
  pystr.contains (a +:+ b +:+ c) code = true → pystr.contains b code = true.
Proof.
  unfold pystr.contains. rewrite !chars_app. intros Hc.
  apply contains_chars_inv in Hc as (pre & post & ->).
  rewrite <- !app_assoc, (app_assoc pre).
  apply contains_chars_intro.
Qed.

(** X15: for a file type other than query and component,
    validate_generated_code accepts every text that is not empty and prints
    nothing; this is the case of the pages and layouts of
    refactor_project_files, which are validated as file type page. *)
Theorem validate_generated_code_checks_nothing_for_pages (code file_type : string)
    (s : state W) :
  code ≠ "" →
  file_type ≠ "query" →
  file_type ≠ "component" →
  validate_generated_code code file_type s = (Ret true, s).
Proof.
  intros Hcode Hq Hc. unfold validate_generated_code, code_issues.
  apply String.eqb_neq in Hcode, Hq, Hc. rewrite Hcode, Hq, Hc. reflexivity.
Qed.

(** X16: a query that holds the line which extracts the entry is accepted,
    whatever else it holds. *)
Theorem validate_generated_code_accepts_extracted_entry (code : string) (s : state W) :
  pystr.contains "const entry = result.entries[0];" code = true →
  validate_generated_code code "query" s = (Ret true, s).
Proof.
  intros Hline. unfold validate_generated_code, code_issues.
  assert (pystr.contains "entry" code = true) as Hentry
    by exact (contains_part "const " "entry" " = result.entries[0];" code Hline).
  destruct (String.eqb_spec code "") as [->|_]; [discriminate Hline|].
  rewrite Hline, Hentry. cbn [String.eqb Ascii.eqb Bool.eqb negb andb].
  rewrite !andb_false_r. reflexivity.
Qed.

Section Retry.
Variable generate_content : string → M W (option string).

Lemma turns_raise_only_api_key_errors (max_retries : nat) (prompt : string) (e : exn) :
  ∀ remaining attempt (s : state W),
    fst (make_api_call_turns generate_content remaining attempt max_retries prompt s)
    = Raise e →
    pystr.contains "API key" (str e) = true.
Proof.
  induction remaining as [|remaining IH]; intros attempt s; [done|].
  simpl. unfold bind at 1. unfold try_except, bind at 1. rewrite print_printed.
  unfold bind at 1.
  destruct (generate_content prompt _) as [[[text|]|e'|] s1]; simpl; try done.
  - apply IH.
  - destruct (pystr.contains "API key" (str e')) eqn:Hkey; simpl.
    + by intros [= <-].
    + destruct (attempt <? max_retries - 1); simpl; [apply IH | done].
Qed.

(** X17: the only exceptions that leave make_api_call_with_retry are those
    whose text mentions an API key; every other failure of the model is
    printed and retried or given up. *)
Theorem make_api_call_with_retry_raises_only_api_key_errors
    (prompt : string) (max_retries : nat) (s : state W) (e : exn) :
  fst (make_api_call_with_retry generate_content prompt max_retries s) = Raise e →
  pystr.contains "API key" (str e) = true.
Proof. apply turns_raise_only_api_key_errors. Qed.

Lemma turns_all_empty (max_retries : nat) (prompt : string) :
  (∀ s, generate_content prompt s = (Ret None, s)) →
  ∀ remaining attempt (s : state W),
    make_api_call_turns generate_content remaining attempt max_retries prompt s
    = (Ret None,
       printed s (flat_map (empty_turn_lines max_retries) (seq attempt remaining))).
Proof.
  intros Hempty. induction remaining as [|remaining IH]; intros attempt s.
  - simpl. by rewrite printed_nil.
  - simpl. unfold bind at 1. unfold try_except, bind at 1. rewrite print_printed.
    unfold bind at 1. rewrite Hempty. simpl. rewrite IH.
    unfold printed. simpl. by rewrite <- !app_assoc.
Qed.

(** X18: when every response of the model comes without parts,
    make_api_call_with_retry asks max_retries times and returns None; it
    prints the two lines of each attempt and nothing else, so the line that
    announces that the retries are used up is not printed. *)
Theorem make_api_call_with_retry_on_empty_responses
    (prompt : string) (max_retries : nat) (s : state W) :
  (∀ s, generate_content prompt s = (Ret None, s)) →
  make_api_call_with_retry generate_content prompt max_retries s
  = (Ret None,
     printed s (flat_map (empty_turn_lines max_retries) (seq 0 max_retries))).
Proof. intros Hempty. by apply turns_all_empty. Qed.

End Retry.

End GeminiFacts.

(** Witness of X15: a page. *)
Lemma validate_generated_code_checks_nothing_for_pages_witness :
  fst (validate_generated_code "data.title" "page" Example.site_state) = Ret true.
Proof.
  rewrite (validate_generated_code_checks_nothing_for_pages "data.title" "page"
             Example.site_state); [reflexivity | discriminate..].
Defined.

(** Witness of X16. *)
Lemma validate_generated_code_accepts_extracted_entry_witness :
  fst (validate_generated_code
         "const entry = result.entries[0]; addEditableTags(entry)" "query"
         Example.site_state) = Ret true.
Proof.
  rewrite (validate_generated_code_accepts_extracted_entry
             "const entry = result.entries[0]; addEditableTags(entry)"
             Example.site_state); reflexivity.
Defined.

(** Witness of X17: the model rejects the key. *)
Lemma make_api_call_with_retry_raises_only_api_key_errors_witness :
  pystr.contains "API key" (str (Exc ValueError "API key not valid.")) = true.
Proof.
  apply (make_api_call_with_retry_raises_only_api_key_errors
           (λ _, raise (Exc ValueError "API key not valid.")) "prompt" 3
           Example.site_state).
  reflexivity.
Defined.

(** Witness of X18: three attempts. *)
Lemma make_api_call_with_retry_on_empty_responses_witness :
  fst (make_api_call_with_retry (W := Example.world) (λ _, ret None) "prompt" 3
         Example.site_state) = Ret None.
Proof.
  rewrite (make_api_call_with_retry_on_empty_responses (λ _, ret None) "prompt" 3
             Example.site_state); [reflexivity|]. intros s. reflexivity.
Defined.

(** ** src/converter.py *)

Section ConverterFacts.
Local Open Scope list_scope.

Lemma concat_app (l1 l2 : list string) :
  pystr.concat (l1 ++ l2) = pystr.concat l1 +:+ pystr.concat l2.
Proof.
  induction l1 as [|x l1 IH]; [done|].
  simpl. rewrite IH. symmetry. apply append_assoc.
Qed.

Lemma to_pascal_case_app (a b : string) (sep : ascii) :
  (Ascii.eqb sep "-" || Ascii.eqb sep "_")%bool = true →
  to_pascal_case (a +:+ String sep b) = to_pascal_case a +:+ to_pascal_case b.
Proof.
  intros Hsep. unfold to_pascal_case, pystr.split_dash_underscore.
  rewrite chars_app. simpl list_ascii_of_string at 2.
  rewrite (split_chars_app _ _ _ [] sep Hsep).
  by rewrite !map_app, concat_app.
Qed.

(** X19: to_pascal_case works word by word: the name of two texts joined
    by a dash or an underscore is the name of the first followed by the
    name of the second. *)
Theorem to_pascal_case_joins_the_names_of_the_parts (a b : string) :
  to_pascal_case (a +:+ "-" +:+ b) = to_pascal_case a +:+ to_pascal_case b
  ∧ to_pascal_case (a +:+ "_" +:+ b) = to_pascal_case a +:+ to_pascal_case b.
Proof. split; by apply to_pascal_case_app. Qed.

(** X20: a text without dash and underscore is one word: its first
    character is put in upper case and every other character in lower
    case, so that the capitals inside a name that is in PascalCase already
    are lost. *)
Theorem to_pascal_case_lowers_inner_capitals (c : ascii) (rest : string) :
  pystr.is_ascii (String c rest) →
  Forall (λ x, (Ascii.eqb x "-" || Ascii.eqb x "_")%bool = false)
         (list_ascii_of_string (String c rest)) →
  to_pascal_case (String c rest)
  = String (pystr.upper c)
           (string_of_list_ascii (map pystr.lower (list_ascii_of_string rest))).
Proof.
  intros _ Hword. unfold to_pascal_case, pystr.split_dash_underscore.
  rewrite (split_chars_no_sep _ _ [] Hword). cbn [rev app map].
  rewrite string_of_list_ascii_of_string. simpl pystr.concat.
  unfold pystr.capitalize.
  apply append_nil_r.
Qed.

Lemma skip_word_run (l rest : list ascii) :
  Forall (λ c, is_word c = true) l →
  skip_word (l ++ "010"%char :: rest) = "010"%char :: rest.
Proof. induction 1 as [|c l Hc Hl IH]; simpl; [done | by rewrite Hc]. Qed.

(** X21: for a text that opens with a fence and a language line and ends
    with a fence, clean_code_block returns everything between them,
    stripped, further fences inside included: the block that is unwrapped
    is the outermost one. *)
Theorem clean_code_block_unwraps_outermost_fences (lang body : string) :
  Forall (λ c, is_word c = true) (list_ascii_of_string lang) →
  clean_code_block ("```" +:+ lang +:+ nl +:+ body +:+ "```") = pystr.strip body.
Proof.
  intros Hlang. unfold clean_code_block.
  rewrite !chars_app. change (list_ascii_of_string nl) with ["010"%char].
  cbn [list_ascii_of_string app find_fence pystr.starts_with
       Ascii.eqb Bool.eqb andb drop].
  rewrite drop_0, app_comm_cons, app_assoc, rev_app_distr.
  cbn [rev app find_fence pystr.starts_with list_ascii_of_string
       Ascii.eqb Bool.eqb andb drop].
  rewrite drop_0, rev_involutive. unfold skip_language_line.
  rewrite (skip_word_run _ _ Hlang).
  cbn [Ascii.eqb Bool.eqb andb]. reflexivity.
Qed.

End ConverterFacts.

(** Witness of X20: a name in PascalCase. *)
Lemma to_pascal_case_lowers_inner_capitals_witness :
  to_pascal_case "HeroSection" = "Herosection".
Proof.
  rewrite (to_pascal_case_lowers_inner_capitals "H"%char "eroSection"
             ltac:(repeat constructor) ltac:(repeat constructor)).
  reflexivity.
Defined.

(** Witness of X21: two blocks in one response. *)
Lemma clean_code_block_unwraps_outermost_fences_witness :
  clean_code_block
    ("```" +:+ "tsx" +:+ nl +:+ "<A />```  and  ```<B />" +:+ nl +:+ "```")
  = "<A />```  and  ```<B />".
Proof.
  refine (eq_trans (clean_code_block_unwraps_outermost_fences "tsx"
                      ("<A />```  and  ```<B />" +:+ nl) _) _);
    [repeat constructor | reflexivity].
Defined.
